(** * Nexus AI server: a shallow embedding of the gateway's request pipeline

    The development follows the server's own layout:
    - [Js]: the JavaScript values the handlers manipulate (JSON data,
      [undefined], truthiness, property access, thrown errors);
    - [Regex]: the character-class regular expressions the server tests
      strings with;
    - [Password]: [validatePasswordStrength] of the main server file;
    - [Validation]: the schemas and the [validate] middleware factory of
      middleware/validation.js;
    - [RateLimit]: the limiter configurations and [getRateLimiters] of
      middleware/rateLimit.js, and the auth limiter of the main server file;
    - [Routes]: the /chain, /scira and /deepseek handlers of routes/api.js.

    A character of a [string] stands for one UTF-16 code unit of the
    corresponding JavaScript string, so [String.length] is [.length]. *)

From Stdlib Require Import ZArith String Ascii List Bool Lia DecimalString.
From stdpp Require Import gmap strings.
Import ListNotations.

Set Warnings "-register-all".
Open Scope string_scope.

(** The double-quote character, for the literals of the source that contain it. *)
Definition dquote : string := String (ascii_of_nat 34) EmptyString.

(* ===================================================================== *)
(** ** JavaScript values *)
(* ===================================================================== *)

Module Js.

(** Data that travels as JSON. *)
Inductive json : Type :=
  | JNull
  | JBool (b : bool)
  | JNum (n : Z)
  | JStr (s : string)
  | JArr (items : list json)
  | JObj (fields : list (string * json)).

(** A JavaScript value: [None] is [undefined]. *)
Definition value : Type := option json.

(** ToBoolean. *)
Definition truthy (v : value) : bool :=
  match v with
  | None => false
  | Some JNull => false
  | Some (JBool b) => b
  | Some (JNum n) => negb (n =? 0)%Z
  | Some (JStr s) => negb (String.eqb s "")
  | Some (JArr _) => true
  | Some (JObj _) => true
  end.

(** [a || b]. *)
Definition or_else (a b : value) : value := if truthy a then a else b.

(** [undefined] and [null]. *)
Definition nullish (v : value) : bool :=
  match v with
  | None | Some JNull => true
  | Some _ => false
  end.

(** Own property of an object literal: the first binding of the key. *)
Fixpoint assoc (k : string) (fs : list (string * json)) : value :=
  match fs with
  | [] => None
  | (k', v) :: rest => if String.eqb k k' then Some v else assoc k rest
  end.

(** The response of a vendor that answered with an HTTP error. *)
Record HttpResponse : Type := { status : Z; data : json }.

(** A thrown error: an axios error carries [response] when the vendor
    answered; a [TypeError] carries none. *)
Record Error : Type := { message : string; response : option HttpResponse }.

Inductive result (A : Type) : Type :=
  | Ok (a : A)
  | Throw (e : Error).
Arguments Ok {A} a.
Arguments Throw {A} e.

Definition type_error (what prop : string) : Error :=
  {| message := "Cannot read properties of " ++ what ++ " (reading '" ++ prop ++ "')";
     response := None |}.

Definition describe (v : value) : string :=
  match v with
  | None => "undefined"
  | Some _ => "null"
  end.

(** [v[k]] for a data value [v]: objects answer with their binding,
    primitives and arrays have no such named property. *)
Definition field (d : json) (k : string) : value :=
  match d with
  | JObj fs => assoc k fs
  | _ => None
  end.

(** [v.k]: throws on [undefined] and [null]. *)
Definition get (v : value) (k : string) : result value :=
  match v with
  | None | Some JNull => Throw (type_error (describe v) k)
  | Some d => Ok (field d k)
  end.

(** [v?.k]. *)
Definition get_opt (v : value) (k : string) : value :=
  match v with
  | None | Some JNull => None
  | Some d => field d k
  end.

(** [v?.[0]]. *)
Definition first_opt (v : value) : value :=
  match v with
  | None | Some JNull => None
  | Some (JArr items) => List.nth_error items 0
  | Some (JStr (String c _)) => Some (JStr (String c EmptyString))
  | Some (JObj fs) => assoc "0" fs
  | Some _ => None
  end.

(** [v.length], as far as the handlers use it: only whether reading it throws. *)
Definition read_length (v : value) : result unit :=
  match v with
  | None | Some JNull => Throw (type_error (describe v) "length")
  | Some _ => Ok tt
  end.

(** An object literal handed to [res.json]: [JSON.stringify] leaves out the
    properties whose value is [undefined]. *)
Fixpoint object (props : list (string * value)) : list (string * json) :=
  match props with
  | [] => []
  | (k, Some v) :: rest => (k, v) :: object rest
  | (_, None) :: rest => object rest
  end.

End Js.

Import Js.

(** What a middleware or handler sends: [res.status(s).json(body)]. *)
Record Reply : Type := { code : Z; body : json }.

(* ===================================================================== *)
(** ** Regular expressions *)
(* ===================================================================== *)

Module Regex.

(** The regular expressions of the server are built from character
    classes. *)
Inductive char_class : Type :=
  | Range (lo hi : ascii)
  | OneOf (chars : string)
  | Union (c1 c2 : char_class).

Fixpoint in_class (cls : char_class) (c : ascii) : bool :=
  match cls with
  | Range lo hi =>
      (nat_of_ascii lo <=? nat_of_ascii c)%nat && (nat_of_ascii c <=? nat_of_ascii hi)%nat
  | OneOf chars => existsb (Ascii.eqb c) (list_ascii_of_string chars)
  | Union c1 c2 => in_class c1 c || in_class c2 c
  end.

(** [/[cls]/.test(s)]: some character of [s] is in the class. *)
Definition test (cls : char_class) (s : string) : bool :=
  existsb (in_class cls) (list_ascii_of_string s).

(** [/^[cls]+$/.test(s)]: [s] is not empty and all its characters are in
    the class. *)
Definition all_of (cls : char_class) (s : string) : bool :=
  negb (String.eqb s "") && forallb (in_class cls) (list_ascii_of_string s).

(** The characters [.] does not match: line feed and carriage return. *)
Definition line_terminator (c : ascii) : bool :=
  (nat_of_ascii c =? 10)%nat || (nat_of_ascii c =? 13)%nat.

(** What [.*] can cross from the start of [s]. *)
Fixpoint first_line (s : string) : string :=
  match s with
  | EmptyString => EmptyString
  | String c rest => if line_terminator c then EmptyString else String c (first_line rest)
  end.

(** [/^(?=.*[cls])/.test(s)]. *)
Definition ahead (cls : char_class) (s : string) : bool :=
  test cls (first_line s).

Definition lower : char_class := Range "a" "z".
Definition upper : char_class := Range "A" "Z".
Definition digit : char_class := Range "0" "9".

End Regex.

(* ===================================================================== *)
(** ** Password strength (main server file) *)
(* ===================================================================== *)

Module Password.
Import Regex.

Definition lower_re : char_class := lower.
Definition upper_re : char_class := upper.
Definition digit_re : char_class := digit.
Definition special_chars : string := "!@#$%^&*(),.?" ++ dquote ++ ":{}|<>".
Definition special_re : char_class := OneOf special_chars.

Record Checks : Type := {
  length_ok : bool;
  lowercase : bool;
  uppercase : bool;
  number : bool;
  special : bool
}.

(** [Object.values(checks)], in insertion order. *)
Definition values (c : Checks) : list bool :=
  [length_ok c; lowercase c; uppercase c; number c; special c].

Record Strength : Type := {
  isValid : bool;
  errors : list string;
  strength : nat
}.

Definition msg_length : string := "Password must be between 6 and 128 characters".
Definition msg_lowercase : string := "Password must contain at least one lowercase letter".
Definition msg_uppercase : string := "Password must contain at least one uppercase letter".
Definition msg_number : string := "Password must contain at least one number".
Definition msg_special : string :=
  "Password must contain at least one special character (" ++ special_chars ++ ")".

(** [if (!check) errors.push(msg)]. *)
Definition push_unless (check : bool) (msg : string) (errs : list string) : list string :=
  if check then errs else errs ++ [msg].

Definition validatePasswordStrength (password : string) : Strength :=
  let checks :=
    {| length_ok := (6 <=? String.length password)%nat && (String.length password <=? 128)%nat;
       lowercase := test lower_re password;
       uppercase := test upper_re password;
       number := test digit_re password;
       special := test special_re password |} in
  let errors := [] in
  let errors := push_unless (length_ok checks) msg_length errors in
  let errors := push_unless (lowercase checks) msg_lowercase errors in
  let errors := push_unless (uppercase checks) msg_uppercase errors in
  let errors := push_unless (number checks) msg_number errors in
  let errors := push_unless (special checks) msg_special errors in
  {| isValid := forallb (fun check => check) (values checks);
     errors := errors;
     strength := List.length (List.filter (fun check => check) (values checks)) |}.

(** The five rules, stated on the characters of the password. *)
Definition chars (s : string) : list ascii := list_ascii_of_string s.

Definition rule_length (p : string) : Prop :=
  (6 <= String.length p <= 128)%nat.
Definition rule_lowercase (p : string) : Prop :=
  exists c, In c (chars p) /\ (97 <= nat_of_ascii c <= 122)%nat.
Definition rule_uppercase (p : string) : Prop :=
  exists c, In c (chars p) /\ (65 <= nat_of_ascii c <= 90)%nat.
Definition rule_number (p : string) : Prop :=
  exists c, In c (chars p) /\ (48 <= nat_of_ascii c <= 57)%nat.
Definition rule_special (p : string) : Prop :=
  exists c, In c (chars p) /\ In c (chars special_chars).

(** How many of five decided rules hold. *)
Definition count_true (bs : list bool) : nat :=
  List.length (List.filter (fun b => b) bs).

End Password.

(* ===================================================================== *)
(** ** Request validation (middleware/validation.js) *)
(* ===================================================================== *)

Module Validation.

(** A rule chained on [Joi.string()]. A pattern carries the source text of
    its regular expression and what [test] answers. *)
Inductive Rule : Type :=
  | Min (n : Z)
  | Max (n : Z)
  | Pattern (source : string) (matches : string -> bool)
  | Email.

(** A [Joi.string()] schema: its rules in the order they are chained,
    whether it is [required()], and its [messages] table (error code to
    text). *)
Record StringSchema : Type := {
  s_rules : list Rule;
  s_required : bool;
  s_messages : list (string * string)
}.

(** A [Joi.object({...})] schema: its keys in declaration order. *)
Definition ObjectSchema : Type := list (string * StringSchema).

(** One entry of [error.details]. *)
Record Detail : Type := { path : list string; text : string }.

Definition decimal (n : Z) : string := NilEmpty.string_of_uint (N.to_uint (Z.to_N n)).

(** The library's own message for a code the schema's table does not
    override; [about] is the limit, the pattern or the value the message
    quotes. *)
Definition default_message (code label about : string) : string :=
  let quoted := dquote ++ label ++ dquote in
  if String.eqb code "any.required" then quoted ++ " is required"
  else if String.eqb code "string.empty" then quoted ++ " is not allowed to be empty"
  else if String.eqb code "string.min" then
    quoted ++ " length must be at least " ++ about ++ " characters long"
  else if String.eqb code "string.max" then
    quoted ++ " length must be less than or equal to " ++ about ++ " characters long"
  else if String.eqb code "string.email" then quoted ++ " must be a valid email"
  else if String.eqb code "string.pattern.base" then
    quoted ++ " fails to match the required pattern: " ++ about
  else quoted ++ " must be a string".

Fixpoint lookup_message (code : string) (table : list (string * string)) : option string :=
  match table with
  | [] => None
  | (c, m) :: rest => if String.eqb code c then Some m else lookup_message code rest
  end.

Definition report (sch : StringSchema) (key code about : string) : Detail :=
  {| path := [key];
     text := match lookup_message code (s_messages sch) with
             | Some m => m
             | None => default_message code key about
             end |}.

Section Checks.

(** Whether the validation library takes a string for an e-mail address. *)
Variable is_email : string -> bool.

(** Modelled from the spec: one rule of a field, checked on a string value
    (the library that runs the rules is not part of the sources; section 4.3
    names the constraints: minimum and maximum length, pattern, and the
    message per violated constraint). *)
Definition check_rule (key : string) (sch : StringSchema) (s : string) (r : Rule)
  : list Detail :=
  match r with
  | Min n =>
      if (Z.of_nat (String.length s) <? n)%Z
      then [report sch key "string.min" (decimal n)] else []
  | Max n =>
      if (n <? Z.of_nat (String.length s))%Z
      then [report sch key "string.max" (decimal n)] else []
  | Pattern source matches =>
      if matches s then [] else [report sch key "string.pattern.base" source]
  | Email =>
      if is_email s then [] else [report sch key "string.email" s]
  end.

(** Modelled from the spec: the library call [schema.validate] is not part of
    the sources. Section 4.3 has it check each declared field against its
    type, requiredness and constraints and collect every violated
    constraint in declaration order; the error codes are those the
    [messages] tables of the schemas name. A missing value violates
    [any.required], a non-string [string.base], the empty string
    [string.empty], and a string is then checked against every rule. *)
Definition check_string (key : string) (sch : StringSchema) (v : value) : list Detail :=
  match v with
  | None => if s_required sch then [report sch key "any.required" ""] else []
  | Some (JStr s) =>
      if String.eqb s "" then [report sch key "string.empty" ""]
      else flat_map (check_rule key sch s) (s_rules sch)
  | Some _ => [report sch key "string.base" ""]
  end.

Definition declared (schema : ObjectSchema) (k : string) : bool :=
  existsb (String.eqb k) (map fst schema).

(** Modelled from the spec: [stripUnknown: true] (section 4.3: a normalized
    payload with unknown fields stripped). The undeclared keys are removed,
    the others stay where they are. *)
Definition strip_unknown (schema : ObjectSchema) (obj : list (string * json))
  : list (string * json) :=
  List.filter (fun kv => declared schema (fst kv)) obj.

(** [schema.validate(body, { abortEarly: false, stripUnknown: true })]:
    the pair [{ error, value }], with [error.details] empty for no error. *)
Definition schema_validate (schema : ObjectSchema) (obj : list (string * json))
  : list Detail * list (string * json) :=
  (flat_map (fun entry => check_string (fst entry) (snd entry) (assoc (fst entry) obj)) schema,
   strip_unknown schema obj).

(** The [input] field of [schemas.deepseek] and of [schemas.gemini]. *)
Definition input_schema : StringSchema :=
  {| s_rules := [Min 1; Max 10000];
     s_required := true;
     s_messages :=
       [("string.empty", "Input cannot be empty");
        ("string.min", "Input must be at least 1 character long");
        ("string.max", "Input cannot exceed 10,000 characters");
        ("any.required", "Input is required")] |}.

Definition deepseek : ObjectSchema := [("input", input_schema)].
Definition gemini : ObjectSchema := [("input", input_schema)].

Definition word_chars : Regex.char_class :=
  Regex.Union (Regex.Range "a" "z")
    (Regex.Union (Regex.Range "A" "Z")
       (Regex.Union (Regex.Range "0" "9") (Regex.OneOf "_"))).

Definition email_schema : StringSchema :=
  {| s_rules := [Email];
     s_required := true;
     s_messages :=
       [("string.email", "Please enter a valid email address");
        ("string.empty", "Email cannot be empty");
        ("any.required", "Email is required")] |}.

Definition userRegister : ObjectSchema :=
  [("username",
    {| s_rules := [Min 3; Max 30;
                   Pattern "/^[a-zA-Z0-9_]+$/" (Regex.all_of word_chars)];
       s_required := true;
       s_messages :=
         [("string.empty", "Username cannot be empty");
          ("string.min", "Username must be at least 3 characters long");
          ("string.max", "Username cannot exceed 30 characters");
          ("string.pattern.base",
           "Username can only contain letters, numbers, and underscores");
          ("any.required", "Username is required")] |});
   ("email", email_schema);
   ("password",
    {| s_rules := [Min 6; Max 128;
                   Pattern "/^(?=.*[a-z])(?=.*[A-Z])(?=.*\d)/"
                     (fun s => Regex.ahead Regex.lower s && Regex.ahead Regex.upper s
                               && Regex.ahead Regex.digit s)];
       s_required := true;
       s_messages :=
         [("string.empty", "Password cannot be empty");
          ("string.min", "Password must be at least 6 characters long");
          ("string.max", "Password cannot exceed 128 characters");
          ("string.pattern.base",
           "Password must contain at least one lowercase letter, one uppercase letter, and one number");
          ("any.required", "Password is required")] |})].

Definition userLogin : ObjectSchema :=
  [("email", email_schema);
   ("password",
    {| s_rules := [];
       s_required := true;
       s_messages :=
         [("string.empty", "Password cannot be empty");
          ("any.required", "Password is required")] |})].

Definition schemas : list (string * ObjectSchema) :=
  [("deepseek", deepseek); ("gemini", gemini);
   ("userRegister", userRegister); ("userLogin", userLogin)].

Fixpoint find_schema (name : string) (table : list (string * ObjectSchema))
  : option ObjectSchema :=
  match table with
  | [] => None
  | (n, s) :: rest => if String.eqb name n then Some s else find_schema name rest
  end.

(** [detail.path.join('.')]. *)
Fixpoint join_path (p : list string) : string :=
  match p with
  | [] => ""
  | [x] => x
  | x :: rest => x ++ "." ++ join_path rest
  end.

Definition error_detail (d : Detail) : json :=
  JObj [("field", JStr (join_path (path d))); ("message", JStr (text d))].

(** A middleware either answers or calls [next()] with the request body it
    leaves behind. *)
Inductive Outcome : Type :=
  | Respond (r : Reply)
  | Next (body' : list (string * json)).

(** [validate(schemaName)(req, res, next)]. *)
Definition validate (schemaName : string) (req_body : list (string * json)) : Outcome :=
  match find_schema schemaName schemas with
  | None =>
      Respond {| code := 500;
                 body := JObj [("error", JStr "Validation configuration error")] |}
  | Some schema =>
      let (error, value) := schema_validate schema req_body in
      match error with
      | _ :: _ =>
          let errorDetails := map error_detail error in
          Respond {| code := 400;
                     body := JObj [("error", JStr "Validation failed");
                                   ("details", JArr errorDetails)] |}
      | [] => Next value
      end
  end.

Definition validateDeepSeek := validate "deepseek".
Definition validateGemini := validate "gemini".

End Checks.

(** A rejection carries a field-level error naming [field]. *)
Definition names_field (field : string) (r : Reply) : Prop :=
  exists details message,
    assoc "details" (match body r with JObj fs => fs | _ => [] end) = Some (JArr details)
    /\ In (JObj [("field", JStr field); ("message", JStr message)]) details.

(** The body is acceptable: [input] is a string of 1 to 10000 characters. *)
Definition input_within_bounds (obj : list (string * json)) : Prop :=
  exists s, assoc "input" obj = Some (JStr s)
            /\ (1 <= Z.of_nat (String.length s) <= 10000)%Z.

(** The body is not: [input] is absent, empty, or longer than 10000 characters. *)
Definition input_out_of_bounds (obj : list (string * json)) : Prop :=
  assoc "input" obj = None
  \/ assoc "input" obj = Some (JStr "")
  \/ exists s, assoc "input" obj = Some (JStr s) /\ (10000 < Z.of_nat (String.length s))%Z.

(** A string of [n] copies of a character. *)
Fixpoint repeat_char (c : ascii) (n : nat) : string :=
  match n with
  | O => EmptyString
  | S n' => String c (repeat_char c n')
  end.

(** A stand-in for the library's e-mail check, for concrete runs. *)
Definition has_at_sign : string -> bool := Regex.test (Regex.OneOf "@").

End Validation.

(* ===================================================================== *)
(** ** Rate limiting (middleware/rateLimit.js, main server file) *)
(* ===================================================================== *)

Module RateLimit.

(** The options a limiter is built from, and what it answers once the
    limit is passed. *)
Record Limiter : Type := {
  windowMs : Z;
  max : Z;
  rejection : Reply
}.

(** The custom [handler]s all answer [429] with the limiter's message. *)
Definition too_many (error : string) : Reply :=
  {| code := 429;
     body := JObj [("error", JStr error); ("retryAfter", JStr "15 minutes")] |}.

Definition generalLimiter : Limiter :=
  {| windowMs := 15 * 60 * 1000;
     max := 100;
     rejection := too_many "Too many requests from this IP, please try again later." |}.

Definition aiLimiter : Limiter :=
  {| windowMs := 15 * 60 * 1000;
     max := 30;
     rejection := too_many "Too many AI requests from this IP, please try again later." |}.

Definition chainLimiter : Limiter :=
  {| windowMs := 15 * 60 * 1000;
     max := 10;
     rejection := too_many "Too many chain requests from this IP, please try again later." |}.

Definition devLimiter : Limiter :=
  {| windowMs := 15 * 60 * 1000;
     max := 1000;
     rejection := too_many "Development rate limit exceeded." |}.

(** The limiter of the login and registration routes. It has no handler of
    its own, so its [message] is sent with the default status; [started] is
    [new Date().toISOString()] at the time the server module was loaded. *)
Definition authLimiter (started : string) : Limiter :=
  {| windowMs := 15 * 60 * 1000;
     max := 5;
     rejection :=
       {| code := 429;
          body := JObj [("error", JStr "Too many authentication attempts, please try again later.");
                        ("metadata", JObj [("timestamp", JStr started)])] |} |}.

Record Limiters : Type := {
  general : Limiter;
  ai : Limiter;
  chain : Limiter
}.

(** [process.env.NODE_ENV === 'development']; an unset variable is [None]. *)
Definition is_development (NODE_ENV : option string) : bool :=
  match NODE_ENV with
  | Some mode => String.eqb mode "development"
  | None => false
  end.

Definition getRateLimiters (NODE_ENV : option string) : Limiters :=
  if is_development NODE_ENV then
    {| general := devLimiter; ai := devLimiter; chain := devLimiter |}
  else
    {| general := generalLimiter; ai := aiLimiter; chain := chainLimiter |}.

(** The count-and-window record kept per client key. *)
Record Window : Type := { hits : Z; opened : Z }.

(** Modelled from the spec: the window a call at [now] is counted in. The
    limiter's store belongs to the rate-limiting library, which is not part
    of the sources; section 4.4 opens a window with counter 0 on the first
    call of a key and again on the first call seen after [windowMs] has
    elapsed. *)
Definition window_at (l : Limiter) (now : Z) (w : option Window) : Window :=
  match w with
  | Some w => if (opened w + windowMs l <=? now)%Z then {| hits := 0; opened := now |} else w
  | None => {| hits := 0; opened := now |}
  end.

(** Modelled from the spec: the admission step of section 4.4 (its [admit])
    for one limiter (the library's middleware is not part of the sources). An
    admitted call increments the counter; a call that would take the counter
    past [max] is rejected and leaves it as it is. *)
Definition admission (l : Limiter) (key : string) (now : Z) (store : gmap string Window)
  : bool * gmap string Window :=
  let w := window_at l now (store !! key) in
  if (max l <? hits w + 1)%Z
  then (false, <[key := w]> store)
  else (true, <[key := {| hits := hits w + 1; opened := opened w |}]> store).

(** A client's calls at the given times, in order: the decision for each
    and the store they leave. *)
Fixpoint admission_all (l : Limiter) (key : string) (times : list Z) (store : gmap string Window)
  : list bool * gmap string Window :=
  match times with
  | [] => ([], store)
  | t :: rest =>
      let (ok, store') := admission l key t store in
      let (oks, store'') := admission_all l key rest store' in
      (ok :: oks, store'')
  end.

(** The counter a key stands at. *)
Definition counter (key : string) (store : gmap string Window) : Z :=
  match store !! key with
  | Some w => hits w
  | None => 0
  end.

End RateLimit.

(* ===================================================================== *)
(** ** Route handlers (routes/api.js) *)
(* ===================================================================== *)

Module Routes.

(** One outbound vendor call: where it went and the prompt it carried. *)
Record Call : Type := { url : string; prompt : value }.

(** What a handler can observe and change besides its reply: the clock
    behind [Date.now()] and the outbound calls made so far. *)
Record World : Type := { now : Z; calls : list Call }.

(** The vendors: for a call to [url] with [prompt] issued at a given time,
    how long it takes and whether it yields response data or throws (a
    non-2xx answer throws with [response] set; a network failure or the
    30 s timeout throws without). *)
Definition Network : Type := string -> value -> Z -> Z * result json.

(** Handler code: state passing over [World], with exceptions. *)
Definition M (A : Type) : Type := World -> result A * World.

Definition ret {A} (a : A) : M A := fun w => (Ok a, w).
Definition throw {A} (e : Error) : M A := fun w => (Throw e, w).
Definition bind {A B} (m : M A) (k : A -> M B) : M B :=
  fun w =>
    match m w with
    | (Ok a, w') => k a w'
    | (Throw e, w') => (Throw e, w')
    end.
Definition lift {A} (r : result A) : M A := fun w => (r, w).

(** [try { body } catch (error) { handler }]. *)
Definition try_catch {A} (body : M A) (handler : Error -> M A) : M A :=
  fun w =>
    match body w with
    | (Ok a, w') => (Ok a, w')
    | (Throw e, w') => handler e w'
    end.

Notation "x <- m ;; k" := (bind m (fun x => k))
  (at level 62, m at next level, right associativity, only parsing).

(** [Date.now()]. *)
Definition date_now : M Z := fun w => (Ok (now w), w).

Definition scira_url : string := "https://api.scira.ai/infer".
Definition deepseek_url : string := "https://api.deepseek.com/generate".
Definition openrouter_url : string := "https://openrouter.ai/api/v1".

(** [res.data.output || res.data.result] for the response data [data]. *)
Definition output_or_result (data : json) : result value :=
  match get (Some data) "output" with
  | Throw e => Throw e
  | Ok output => if truthy output then Ok output else get (Some data) "result"
  end.

(** A stage fails when the handler ends up in its [catch] block because of
    it: the call throws, or the output of the answer cannot be read. *)
Definition stage_fails (outcome : result json) : Prop :=
  match outcome with
  | Throw _ => True
  | Ok data =>
      match output_or_result data with
      | Throw _ => True
      | Ok v => nullish v = true
      end
  end.

(** A stage yields [v] when the call returns data whose output is [v]. *)
Definition stage_yields (outcome : result json) (v : json) : Prop :=
  exists data, outcome = Ok data /\ output_or_result data = Ok (Some v) /\ v <> JNull.

Section Handlers.

(** [Date.prototype.toISOString], for the time given in milliseconds. *)
Variable toISOString : Z -> string.
(** The validation library's e-mail check. *)
Variable is_email : string -> bool.
Variable net : Network.

(** [await axios.post(url, { prompt }, ...)] and, for the OpenRouter client,
    [await openai.chat.completions.create(...)] with the user message
    [prompt]: the call is recorded, the clock moves on by its duration, and
    the awaited value is the response data or the thrown error. *)
Definition call (target : string) (p : value) : M json :=
  fun w =>
    let (took, outcome) := net target p (now w) in
    (outcome, {| now := now w + took; calls := calls w ++ [{| url := target; prompt := p |}] |}).

(** [metadata: { processingTime: Date.now() - startTime,
                 timestamp: new Date().toISOString() }]. *)
Definition metadata (startTime : Z) : M json :=
  t <- date_now ;;
  ret (JObj [("processingTime", JNum (t - startTime)); ("timestamp", JStr (toISOString t))]).


(** The [catch] block of [POST /chain]. *)
Definition chain_catch (startTime : Z) (error : Error) : M Reply :=
  meta <- metadata startTime ;;
  match response error with
  | Some vendor =>
      ret {| code := status vendor;
             body := JObj [("error", JStr "API service error");
                           ("details", data vendor);
                           ("metadata", meta)] |}
  | None =>
      ret {| code := 500;
             body := JObj [("error", JStr "Chaining failed. Please check logs.");
                           ("metadata", meta)] |}
  end.

(** The handler of [POST /chain]. The logger calls are kept only for the
    [.length] reads in their arguments, which can throw. *)
Definition chain_handler (input : value) : M Reply :=
  startTime <- date_now ;;
  _ <- lift (read_length input) ;;
  try_catch
    (sciraRes <- call scira_url input ;;
     sciraOutput <- lift (output_or_result sciraRes) ;;
     _ <- lift (read_length sciraOutput) ;;
     deepSeekRes <- call deepseek_url sciraOutput ;;
     deepSeekOutput <- lift (output_or_result deepSeekRes) ;;
     _ <- lift (read_length sciraOutput) ;;
     _ <- lift (read_length deepSeekOutput) ;;
     meta <- metadata startTime ;;
     ret {| code := 200;
            body := JObj (object
              [("output", deepSeekOutput);
               ("chain", Some (JObj (object [("scira", sciraOutput);
                                             ("deepseek", deepSeekOutput)])));
               ("metadata", Some meta)]) |})
    (chain_catch startTime).

(** The handlers of [POST /scira] and [POST /deepseek] that call the
    vendor over HTTP: one call, [failure] as the error text. *)
Definition single_handler (target failure : string) (input : value) : M Reply :=
  startTime <- date_now ;;
  _ <- lift (read_length input) ;;
  try_catch
    (res <- call target input ;;
     output <- lift (output_or_result res) ;;
     _ <- lift (read_length output) ;;
     meta <- metadata startTime ;;
     ret {| code := 200;
            body := JObj (object [("output", output); ("metadata", Some meta)]) |})
    (fun error =>
       meta <- metadata startTime ;;
       ret {| code := 500;
              body := JObj [("error", JStr failure); ("metadata", meta)] |}).

Definition scira_handler : value -> M Reply :=
  single_handler scira_url "Scira API call failed".
Definition deepseek_http_handler : value -> M Reply :=
  single_handler deepseek_url "DeepSeek API call failed".

(** [completion?.choices?.[0]?.message?.content]. *)
Definition first_content (completion : value) : value :=
  get_opt (get_opt (first_opt (get_opt completion "choices")) "message") "content".

(** The part both OpenRouter handlers share after the completion has been
    read: [|| 'No response'], the reply, and the [catch] block. *)
Definition openrouter_handler (failure : string) (read : json -> M value)
    (input : value) (startTime : Z) : M Reply :=
  try_catch
    (completion <- call openrouter_url input ;;
     content <- read completion ;;
     let output := or_else content (Some (JStr "No response")) in
     _ <- lift (read_length output) ;;
     meta <- metadata startTime ;;
     ret {| code := 200;
            body := JObj (object [("output", output); ("metadata", Some meta)]) |})
    (fun error =>
       meta <- metadata startTime ;;
       ret {| code := 500;
              body := JObj [("error", JStr failure);
                            ("details", JStr (message error));
                            ("metadata", meta)] |}).

(** The handler of [POST /deepseek] behind the limiter and the validator:
    it reads [input.length] and [completion.choices] unguarded. *)
Definition deepseek_handler (input : value) : M Reply :=
  startTime <- date_now ;;
  _ <- lift (read_length input) ;;
  openrouter_handler "DeepSeek API call via OpenRouter failed"
    (fun completion =>
       choices <- lift (get (Some completion) "choices") ;;
       ret (get_opt (get_opt (first_opt choices) "message") "content"))
    input startTime.

(** The handler of [POST /deepseek] of the router that runs without
    middleware: [input?.length] and [completion?.choices]. *)
Definition deepseek_handler_open (input : value) : M Reply :=
  startTime <- date_now ;;
  openrouter_handler "DeepSeek API call failed"
    (fun completion => ret (first_content (Some completion)))
    input startTime.

(** A request as the middleware chain sees it. *)
Record Request : Type := { ip : string; req_body : list (string * json) }.

(** [router.post('/deepseek', ai, validateDeepSeek, handler)]: the limiter,
    then the validator, then the handler on the body the validator left. *)
Definition post_deepseek (NODE_ENV : option string) (req : Request)
    (store : gmap string RateLimit.Window) (w : World)
  : result Reply * gmap string RateLimit.Window * World :=
  let limiter := RateLimit.ai (RateLimit.getRateLimiters NODE_ENV) in
  match RateLimit.admission limiter (ip req) (now w) store with
  | (false, store') => (Ok (RateLimit.rejection limiter), store', w)
  | (true, store') =>
      match Validation.validateDeepSeek is_email (req_body req) with
      | Validation.Respond r => (Ok r, store', w)
      | Validation.Next body' =>
          let (r, w') := deepseek_handler (assoc "input" body') w in
          (r, store', w')
      end
  end.

End Handlers.

(** How often a vendor was called. *)
Definition call_count (target : string) (w : World) : nat :=
  List.length (List.filter (fun c => String.eqb (url c) target) (calls w)).

(** The uniform envelope: a [metadata] object with a numeric
    [processingTime] and a string [timestamp]. *)
Definition has_envelope (b : json) : bool :=
  match field b "metadata" with
  | Some m =>
      match field m "processingTime", field m "timestamp" with
      | Some (JNum _), Some (JStr _) => true
      | _, _ => false
      end
  | None => false
  end.

(** Every reply a computation can end with satisfies [P]. *)
Definition ensures {A} (m : M A) (P : A -> Prop) : Prop :=
  forall w a w', m w = (Ok a, w') -> P a.

(** The [metadata] object of the handlers. *)
Definition is_metadata (m : json) : Prop :=
  exists ms stamp, m = JObj [("processingTime", JNum ms); ("timestamp", JStr stamp)].

(** Stand-ins for the vendors, for concrete runs: every call takes [took]
    milliseconds; the first stage answers by [scira], any other target by
    [other], each from the prompt it is sent. *)
Definition stub (took : Z) (scira other : value -> result json) : Network :=
  fun target p _ =>
    if String.eqb target scira_url then (took, scira p) else (took, other p).

(** A vendor that answers [{ output: text }]. *)
Definition answers (text : string) : value -> result json :=
  fun _ => Ok (JObj [("output", JStr text)]).

(** A vendor that answers with its prompt as the output. *)
Definition echoes : value -> result json :=
  fun p => Ok (JObj (object [("output", p)])).

(** A vendor that cannot be reached. *)
Definition unreachable : value -> result json :=
  fun _ => Throw {| message := "connect ECONNREFUSED"; response := None |}.

(** A vendor that answers with an HTTP error. *)
Definition refuses (code : Z) (reason : json) : value -> result json :=
  fun _ => Throw {| message := "Request failed";
                    response := Some {| status := code; data := reason |} |}.

(** A clock rendering for concrete runs. *)
Definition fixed_stamp : Z -> string := fun _ => "2024-01-01T00:00:00.000Z".

Definition start : World := {| now := 0; calls := [] |}.

(** Two runs of the chain: the first vendor down, and the second vendor
    down after the first answered. *)
Definition first_down : Network := stub 0 unreachable (answers "Y").
Definition second_down : Network := stub 0 (answers "X") unreachable.

(** A completion without choices, and a vendor that answers with it. *)
Definition no_choices : json := JObj [("choices", JArr [])].
Definition silent : Network := stub 25 unreachable (fun _ => Ok no_choices).

End Routes.

(* ===================================================================== *)
(** ** The Gemini service (services/gemini.js) and its route *)
(* ===================================================================== *)

Module Gemini.
Import Routes.

(** What [model.generateContent(prompt)] resolves to, as far as the service
    reads it: [result.response.text()], which can throw, and
    [result.usageMetadata]. *)
Record Generated : Type := { text : result string; usageMetadata : value }.

(** The vendor SDK: for a prompt sent at a given time, how long the call
    takes and what it resolves to or throws. *)
Definition Sdk : Type := value -> Z -> Z * result Generated.

Record Service : Type := { apiKey : string; modelName : string }.

(** [new GeminiService()], given [process.env.GOOGLE_GEMINI_API_KEY]. *)
Definition create (GOOGLE_GEMINI_API_KEY : option string) : result Service :=
  match GOOGLE_GEMINI_API_KEY with
  | Some key =>
      if truthy (Some (JStr key))
      then Ok {| apiKey := key; modelName := "gemini-2.0-flash-exp" |}
      else Throw {| message := "GOOGLE_GEMINI_API_KEY is required"; response := None |}
  | None => Throw {| message := "GOOGLE_GEMINI_API_KEY is required"; response := None |}
  end.

(** The router's start-up: [try { geminiService = new GeminiService() }
    catch (error) { logger.error(...) }]. *)
Definition init (GOOGLE_GEMINI_API_KEY : option string) : option Service :=
  match create GOOGLE_GEMINI_API_KEY with
  | Ok service => Some service
  | Throw _ => None
  end.

(** What [generateResponse] returns: [{ output, metadata }]. *)
Record Answer : Type := { output : string; metadata : list (string * json) }.

(** [{ ...obj, [k]: v }]: an existing key keeps its place and takes the new
    value, a new key goes last. *)
Fixpoint assign (k : string) (v : json) (obj : list (string * json))
  : list (string * json) :=
  match obj with
  | [] => [(k, v)]
  | (k', v') :: rest =>
      if String.eqb k k' then (k, v) :: rest else (k', v') :: assign k v rest
  end.

(** [new Error(`${prefix}${error.message}`)]. *)
Definition wrapped (prefix : string) (error : Error) : Error :=
  {| message := prefix ++ message error; response := None |}.

Section Service.

Variable toISOString : Z -> string.
Variable sdk : Sdk.

(** [await this.model.generateContent(prompt)]: the call is recorded under
    the model's name and the clock moves on by its duration. *)
Definition generateContent (service : Service) (p : value) : M Generated :=
  fun w =>
    let (took, outcome) := sdk p (now w) in
    (outcome,
     {| now := now w + took;
        calls := calls w ++ [{| url := modelName service; prompt := p |}] |}).

(** [x || 0] for a token count of [result.usageMetadata]. *)
Definition count (usage : value) (k : string) : value :=
  or_else (get_opt usage k) (Some (JNum 0)).

(** [generateResponse(prompt)]. *)
Definition generateResponse (service : Service) (p : value) : M Answer :=
  startTime <- date_now ;;
  try_catch
    (_ <- lift (read_length p) ;;
     result <- generateContent service p ;;
     text <- lift (text result) ;;
     t <- date_now ;;
     ret {| output := text;
            metadata :=
              [("model", JStr (modelName service));
               ("processingTime", JNum (t - startTime));
               ("timestamp", JStr (toISOString t));
               ("usage",
                JObj (object
                  [("promptTokens", count (usageMetadata result) "promptTokenCount");
                   ("responseTokens", count (usageMetadata result) "candidatesTokenCount");
                   ("totalTokens", count (usageMetadata result) "totalTokenCount")]))] |})
    (fun error => throw (wrapped "Gemini API error: " error)).

(** [healthCheck()]. *)
Definition healthCheck (service : Service) : M json :=
  try_catch
    (result <- generateResponse service (Some (JStr "Hello")) ;;
     ret (JObj [("status", JStr "healthy");
                ("model", JStr (modelName service));
                ("response", JStr (String.substring 0 50 (output result) ++ "..."))]))
    (fun error =>
       ret (JObj [("status", JStr "unhealthy");
                  ("model", JStr (modelName service));
                  ("error", JStr (message error))])).

(** The handler of [POST /gemini] of the router that holds a
    [geminiService], which is [undefined] when the service could not be
    built. *)
Definition gemini_handler (geminiService : option Service) (input : value) : M Reply :=
  startTime <- date_now ;;
  match geminiService with
  | None =>
      meta <- Routes.metadata toISOString startTime ;;
      ret {| code := 503;
             body := JObj [("error",
                            JStr "Gemini service is not available. Please check API key configuration.");
                           ("metadata", meta)] |}
  | Some service =>
      _ <- lift (read_length input) ;;
      try_catch
        (result <- generateResponse service input ;;
         t <- date_now ;;
         ret {| code := 200;
                body := JObj [("output", JStr (output result));
                              ("metadata",
                               JObj (assign "processingTime" (JNum (t - startTime))
                                       (metadata result)))] |})
        (fun error =>
           meta <- Routes.metadata toISOString startTime ;;
           ret {| code := 500;
                  body := JObj [("error", JStr "Gemini API call failed");
                                ("details", JStr (message error));
                                ("metadata", meta)] |})
  end.

End Service.

(** Stand-ins for the SDK, for concrete runs. *)
Definition replies (took : Z) (answer : string) (usage : value) : Sdk :=
  fun _ _ => (took, Ok {| text := Ok answer; usageMetadata := usage |}).
Definition down (took : Z) (why : string) : Sdk :=
  fun _ _ => (took, Throw {| message := why; response := None |}).

End Gemini.

(* ===================================================================== *)
(** ** Login (routes/api.js) *)
(* ===================================================================== *)

Module Users.

(** A user document, as far as the login handler reads and writes it. *)
Record User : Type := {
  _id : value;
  username : value;
  email : value;
  password : value;
  createdAt : value;
  lastLogin : value
}.

(** The collaborators of the handler: [User.findOne({ email })],
    [bcrypt.compare(password, user.password)] and [user.save()], each with
    the time it takes and whether it resolves or throws. *)
Record Collaborators : Type := {
  findOne : value -> Z -> Z * result (option User);
  compare : value -> value -> Z -> Z * result bool;
  save : User -> Z -> Z * result unit
}.

(** The clock, and the documents [save()] was called on. *)
Record State : Type := { clock : Z; saves : list User }.

Section Login.

Variable toISOString : Z -> string.
Variable db : Collaborators.

(** [metadata: { processingTime: Date.now() - startTime,
                 timestamp: new Date().toISOString() }]. *)
Definition stamp (startTime : Z) (s : State) : json :=
  JObj [("processingTime", JNum (clock s - startTime));
        ("timestamp", JStr (toISOString (clock s)))].

(** The two [401] replies of the handler. *)
Definition invalid (startTime : Z) (s : State) : Reply :=
  {| code := 401;
     body := JObj [("error", JStr "Invalid email or password");
                   ("metadata", stamp startTime s)] |}.

(** The [catch] block. *)
Definition failed (startTime : Z) (s : State) : Reply :=
  {| code := 500;
     body := JObj [("error", JStr "Failed to login");
                   ("metadata", stamp startTime s)] |}.

(** The handler of [POST /users/login] for the [email] and [password] of
    the request body. *)
Definition login (email_in password_in : value) (s : State) : Reply * State :=
  let startTime := clock s in
  let (t1, found) := findOne db email_in (clock s) in
  let s1 := {| clock := clock s + t1; saves := saves s |} in
  match found with
  | Throw _ => (failed startTime s1, s1)
  | Ok None => (invalid startTime s1, s1)
  | Ok (Some user) =>
      let (t2, isPasswordValid) := compare db password_in (password user) (clock s1) in
      let s2 := {| clock := clock s1 + t2; saves := saves s1 |} in
      match isPasswordValid with
      | Throw _ => (failed startTime s2, s2)
      | Ok false => (invalid startTime s2, s2)
      | Ok true =>
          let user' :=
            {| _id := _id user; username := username user; email := email user;
               password := password user; createdAt := createdAt user;
               lastLogin := Some (JStr (toISOString (clock s2))) |} in
          let (t3, saved) := save db user' (clock s2) in
          let s3 := {| clock := clock s2 + t3; saves := saves s2 ++ [user'] |} in
          match saved with
          | Throw _ => (failed startTime s3, s3)
          | Ok _ =>
              ({| code := 200;
                  body := JObj (object
                    [("message", Some (JStr "Login successful"));
                     ("user",
                      Some (JObj (object
                        [("id", _id user'); ("username", username user');
                         ("email", email user'); ("createdAt", createdAt user');
                         ("lastLogin", lastLogin user')])));
                     ("metadata", Some (stamp startTime s3))]) |}, s3)
          end
      end
  end.

End Login.

(** Stand-ins for concrete runs: one registered user, and collaborators
    that find her by her address and let [matches] decide the password
    check. *)
Definition alice : User :=
  {| _id := Some (JStr "u1");
     username := Some (JStr "alice");
     email := Some (JStr "alice@example.com");
     password := Some (JStr "$2a$12$hash");
     createdAt := Some (JStr "2024-01-01T00:00:00.000Z");
     lastLogin := None |}.

Definition registry (matches : bool) : Collaborators :=
  {| findOne := fun address _ =>
       (3%Z, Ok (match address with
                 | Some (JStr a) => if String.eqb a "alice@example.com" then Some alice else None
                 | _ => None
                 end));
     compare := fun _ _ _ => (80%Z, Ok matches);
     save := fun _ _ => (2%Z, Ok tt) |}.

End Users.

(* ===================================================================== *)
(** * Properties *)
(* ===================================================================== *)

(** ** Password strength *)

Section PasswordFacts.
Import Regex Password.

Lemma test_range lo hi (p : string) :
  test (Range lo hi) p = true <->
  exists c, In c (chars p) /\ (nat_of_ascii lo <= nat_of_ascii c <= nat_of_ascii hi)%nat.
Proof.
  unfold test, chars. rewrite existsb_exists. split.
  - intros [c [Hin Hc]]. exists c. split; [exact Hin|].
    simpl in Hc. apply andb_true_iff in Hc as [H1 H2].
    apply Nat.leb_le in H1. apply Nat.leb_le in H2. lia.
  - intros [c [Hin [H1 H2]]]. exists c. split; [exact Hin|].
    simpl. apply andb_true_iff. split; apply Nat.leb_le; assumption.
Qed.

Lemma test_one_of set (p : string) :
  test (OneOf set) p = true <-> exists c, In c (chars p) /\ In c (chars set).
Proof.
  unfold test, chars. rewrite existsb_exists. split.
  - intros [c [Hin Hc]]. exists c. split; [exact Hin|].
    simpl in Hc. apply existsb_exists in Hc as [d [Hd Heq]].
    apply Ascii.eqb_eq in Heq. subst d. exact Hd.
  - intros [c [Hin Hc]]. exists c. split; [exact Hin|].
    simpl. apply existsb_exists. exists c. split; [exact Hc|]. apply Ascii.eqb_refl.
Qed.

Lemma length_check (p : string) :
  (6 <=? String.length p)%nat && (String.length p <=? 128)%nat = true <-> rule_length p.
Proof.
  unfold rule_length. rewrite andb_true_iff, !Nat.leb_le. reflexivity.
Qed.

(** C8. [validatePasswordStrength] is a function of the password alone.
    Its five checks decide the five rules (length 6 to 128, a lowercase
    letter, an uppercase letter, a digit, a special character); [isValid]
    holds exactly when all five rules hold; [strength] is the number of
    rules that hold, between 0 and 5; [errors] lists the messages of the
    violated rules in rule order. The password abc is invalid with the
    length, uppercase, number and special-character messages, and the
    password Abcdef1! is valid with strength 5. *)
Theorem password_strength_rules (p : string) :
  let r := validatePasswordStrength p in
  (isValid r = true <->
     rule_length p /\ rule_lowercase p /\ rule_uppercase p /\ rule_number p /\ rule_special p)
  /\ (exists b1 b2 b3 b4 b5 : bool,
        (b1 = true <-> rule_length p) /\ (b2 = true <-> rule_lowercase p)
        /\ (b3 = true <-> rule_uppercase p) /\ (b4 = true <-> rule_number p)
        /\ (b5 = true <-> rule_special p)
        /\ strength r = count_true [b1; b2; b3; b4; b5]
        /\ errors r =
           map snd (List.filter (fun e => negb (fst e))
                      [(b1, msg_length); (b2, msg_lowercase); (b3, msg_uppercase);
                       (b4, msg_number); (b5, msg_special)]))
  /\ (strength r <= 5)%nat
  /\ validatePasswordStrength "abc" =
       {| isValid := false;
          errors := [msg_length; msg_uppercase; msg_number; msg_special];
          strength := 1 |}
  /\ validatePasswordStrength "Abcdef1!" =
       {| isValid := true; errors := []; strength := 5 |}.
Proof.
  intros r.
  pose proof (length_check p) as Hlen.
  pose proof (test_range "a" "z" p) as Hlow.
  pose proof (test_range "A" "Z" p) as Hup.
  pose proof (test_range "0" "9" p) as Hnum.
  pose proof (test_one_of special_chars p) as Hsp.
  change (nat_of_ascii "a") with 97%nat in Hlow. change (nat_of_ascii "z") with 122%nat in Hlow.
  change (nat_of_ascii "A") with 65%nat in Hup. change (nat_of_ascii "Z") with 90%nat in Hup.
  change (nat_of_ascii "0") with 48%nat in Hnum. change (nat_of_ascii "9") with 57%nat in Hnum.
  fold (rule_lowercase p) in Hlow. fold (rule_uppercase p) in Hup.
  fold (rule_number p) in Hnum. fold (rule_special p) in Hsp.
  subst r. unfold validatePasswordStrength, lower_re, upper_re, digit_re, special_re,
    lower, upper, digit.
  cbn [isValid strength errors values length_ok lowercase uppercase number special forallb].
  set (b1 := (6 <=? String.length p)%nat && (String.length p <=? 128)%nat) in *.
  set (b2 := test (Range "a" "z") p) in *.
  set (b3 := test (Range "A" "Z") p) in *.
  set (b4 := test (Range "0" "9") p) in *.
  set (b5 := test (OneOf special_chars) p) in *.
  split; [|split; [|split; [|split]]].
  - rewrite <- Hlen, <- Hlow, <- Hup, <- Hnum, <- Hsp.
    rewrite !andb_true_iff. tauto.
  - exists b1, b2, b3, b4, b5.
    repeat (split; [assumption|]).
    split; [reflexivity|].
    clearbody b1 b2 b3 b4 b5. clear.
    destruct b1, b2, b3, b4, b5; reflexivity.
  - clearbody b1 b2 b3 b4 b5. clear.
    destruct b1, b2, b3, b4, b5; simpl; lia.
  - reflexivity.
  - reflexivity.
Qed.

End PasswordFacts.

(** ** Request validation *)

Section ValidationFacts.
Import Validation.

Variable is_email : string -> bool.

Lemma assoc_strip_unknown schema k obj :
  declared schema k = true -> assoc k (strip_unknown schema obj) = assoc k obj.
Proof.
  intros Hk. unfold strip_unknown.
  induction obj as [|[k' v] obj IH]; [reflexivity|].
  cbn [List.filter fst]. destruct (declared schema k') eqn:Hk'.
  - cbn [assoc]. rewrite IH. reflexivity.
  - cbn [assoc]. destruct (String.eqb k k') eqn:E; [|exact IH].
    apply String.eqb_eq in E. congruence.
Qed.

Lemma strip_unknown_twice schema obj :
  strip_unknown schema (strip_unknown schema obj) = strip_unknown schema obj.
Proof.
  unfold strip_unknown.
  induction obj as [|[k v] obj IH]; [reflexivity|].
  cbn [List.filter fst]. destruct (declared schema k) eqn:Hk; [|exact IH].
  cbn [List.filter fst]. rewrite Hk, IH. reflexivity.
Qed.

Lemma declared_here schema (entry : string * StringSchema) :
  In entry schema -> declared schema (fst entry) = true.
Proof.
  intros Hin. unfold declared. apply existsb_exists.
  exists (fst entry). split; [apply in_map; exact Hin | apply String.eqb_refl].
Qed.

Lemma flat_map_agree {A B} (f g : A -> list B) (l : list A) :
  (forall a, In a l -> f a = g a) -> flat_map f l = flat_map g l.
Proof.
  induction l as [|a l IH]; intros H; [reflexivity|].
  cbn [flat_map]. rewrite (H a (or_introl eq_refl)), IH; [reflexivity|].
  intros b Hb. apply H. right. exact Hb.
Qed.

(** Validating what validation left behind finds the same violations and
    leaves the same object. *)
Lemma schema_validate_stripped schema obj :
  schema_validate is_email schema (strip_unknown schema obj) =
  (fst (schema_validate is_email schema obj), strip_unknown schema obj).
Proof.
  unfold schema_validate. cbn [fst]. rewrite strip_unknown_twice. f_equal.
  apply flat_map_agree. intros entry Hin.
  rewrite assoc_strip_unknown by (apply declared_here; exact Hin). reflexivity.
Qed.

Lemma validate_next name obj obj' :
  validate is_email name obj = Next obj' ->
  exists schema,
    find_schema name schemas = Some schema
    /\ fst (schema_validate is_email schema obj) = []
    /\ obj' = strip_unknown schema obj.
Proof.
  unfold validate. destruct (find_schema name schemas) as [schema|]; [|discriminate].
  intros H. exists schema. split; [reflexivity|].
  unfold schema_validate in *. cbn [fst].
  destruct (flat_map _ schema); [|discriminate].
  injection H as <-. split; reflexivity.
Qed.

(** C9. Whenever the [validate] middleware of a schema accepts a body and
    leaves the normalized body (unknown fields stripped), running the same
    middleware on that normalized body accepts again and leaves exactly the
    same body: the same fields with the same values in the same order. *)
Theorem validate_idempotent (name : string) (obj obj' : list (string * json)) :
  validate is_email name obj = Next obj' -> validate is_email name obj' = Next obj'.
Proof.
  intros H. destruct (validate_next _ _ _ H) as [schema [Hs [He ->]]].
  unfold validate. rewrite Hs, schema_validate_stripped, He. reflexivity.
Qed.

Lemma input_in_bounds (s : string) :
  (1 <= String.length s)%nat -> (Z.of_nat (String.length s) <= 10000)%Z ->
  check_string is_email "input" input_schema (Some (JStr s)) = [].
Proof.
  intros Hlo Hhi. unfold check_string.
  destruct (String.eqb s "") eqn:E.
  - apply String.eqb_eq in E. subst s. simpl in Hlo. lia.
  - cbn [s_rules input_schema flat_map check_rule].
    destruct (Z.ltb_spec (Z.of_nat (String.length s)) 1); [lia|].
    destruct (Z.ltb_spec 10000 (Z.of_nat (String.length s))); [lia|].
    reflexivity.
Qed.

Lemma input_too_long (s : string) :
  (10000 < Z.of_nat (String.length s))%Z ->
  check_string is_email "input" input_schema (Some (JStr s)) =
    [{| path := ["input"]; text := "Input cannot exceed 10,000 characters" |}].
Proof.
  intros Hhi. unfold check_string.
  destruct (String.eqb s "") eqn:E.
  - apply String.eqb_eq in E. subst s. simpl in Hhi. lia.
  - cbn [s_rules input_schema flat_map check_rule].
    destruct (Z.ltb_spec (Z.of_nat (String.length s)) 1); [lia|].
    destruct (Z.ltb_spec 10000 (Z.of_nat (String.length s))); [|lia].
    reflexivity.
Qed.

Lemma accepts_within_bounds name obj :
  name = "deepseek" \/ name = "gemini" ->
  input_within_bounds obj ->
  validate is_email name obj = Next (strip_unknown [("input", input_schema)] obj).
Proof.
  intros Hname [s [Hs [Hlo Hhi]]].
  assert (Hok : check_string is_email "input" input_schema (assoc "input" obj) = []).
  { rewrite Hs. apply input_in_bounds; lia. }
  destruct Hname as [-> | ->]; unfold validate; cbn [find_schema schemas String.eqb Ascii.eqb Bool.eqb];
    unfold schema_validate, deepseek, gemini; cbn [flat_map fst snd];
    rewrite Hok; reflexivity.
Qed.

Lemma rejects_out_of_bounds name obj :
  name = "deepseek" \/ name = "gemini" ->
  input_out_of_bounds obj ->
  exists r, validate is_email name obj = Respond r /\ code r = 400%Z /\ names_field "input" r.
Proof.
  intros Hname Hbad.
  assert (Hone : exists m, check_string is_email "input" input_schema (assoc "input" obj)
                           = [{| path := ["input"]; text := m |}]).
  { destruct Hbad as [H | [H | [s [H Hlen]]]]; rewrite H.
    - eexists. reflexivity.
    - eexists. reflexivity.
    - eexists. apply input_too_long. exact Hlen. }
  destruct Hone as [m Hm].
  destruct Hname as [-> | ->]; unfold validate; cbn [find_schema schemas String.eqb Ascii.eqb Bool.eqb];
    unfold schema_validate, deepseek, gemini; cbn [flat_map fst snd];
    rewrite Hm; cbn [app map];
    (eexists; split; [reflexivity|]; split; [reflexivity|]);
    exists [error_detail {| path := ["input"]; text := m |}], m;
    (split; [reflexivity | left; reflexivity]).
Qed.

End ValidationFacts.

(** ** Rate limiting *)

Section RateLimitFacts.
Import RateLimit.

(** C10. With [NODE_ENV] equal to development, [getRateLimiters] hands out
    the one development limiter (1000 requests per 15-minute window) as the
    general, the ai and the chain limiter, so none of the three carries its
    tier maximum of 100, 30 or 10. *)
Theorem development_limiters :
  let dev := getRateLimiters (Some "development") in
  general dev = devLimiter /\ ai dev = devLimiter /\ chain dev = devLimiter
  /\ max devLimiter = 1000%Z /\ windowMs devLimiter = (15 * 60 * 1000)%Z
  /\ max (general dev) <> max generalLimiter
  /\ max (ai dev) <> max aiLimiter
  /\ max (chain dev) <> max chainLimiter
  /\ max generalLimiter = 100%Z /\ max aiLimiter = 30%Z /\ max chainLimiter = 10%Z.
Proof.
  cbv zeta. repeat split; try reflexivity; cbn; discriminate.
Qed.

Lemma admission_other l key now (store : gmap string Window) k' :
  k' <> key -> snd (admission l key now store) !! k' = store !! k'.
Proof.
  intros Hne. unfold admission.
  destruct (max l <? hits (window_at l now (store !! key)) + 1)%Z; cbn [snd];
    apply lookup_insert_ne; congruence.
Qed.

Lemma admission_fresh l key now (store : gmap string Window) :
  (1 <= max l)%Z -> store !! key = None ->
  admission l key now store = (true, <[key := {| hits := 1; opened := now |}]> store).
Proof.
  intros Hmax Hnone. unfold admission. rewrite Hnone. cbn [window_at hits opened].
  destruct (Z.ltb_spec (max l) (0 + 1)); [lia|]. reflexivity.
Qed.

Lemma admission_elapsed l key now (store : gmap string Window) w :
  (1 <= max l)%Z -> store !! key = Some w -> (opened w + windowMs l <= now)%Z ->
  admission l key now store = (true, <[key := {| hits := 1; opened := now |}]> store).
Proof.
  intros Hmax Hw Hexp. unfold admission. rewrite Hw. cbn [window_at].
  destruct (Z.leb_spec (opened w + windowMs l) now); [|lia]. cbn [hits opened].
  destruct (Z.ltb_spec (max l) (0 + 1)); [lia|]. reflexivity.
Qed.

Lemma admission_room l key now (store : gmap string Window) w :
  store !! key = Some w -> (now < opened w + windowMs l)%Z -> (hits w < max l)%Z ->
  admission l key now store =
    (true, <[key := {| hits := hits w + 1; opened := opened w |}]> store).
Proof.
  intros Hw Hin Hroom. unfold admission. rewrite Hw. cbn [window_at].
  destruct (Z.leb_spec (opened w + windowMs l) now); [lia|].
  destruct (Z.ltb_spec (max l) (hits w + 1)); [lia|]. reflexivity.
Qed.

Lemma admission_full l key now (store : gmap string Window) w :
  store !! key = Some w -> (now < opened w + windowMs l)%Z -> (max l <= hits w)%Z ->
  admission l key now store = (false, store).
Proof.
  intros Hw Hin Hfull. unfold admission. rewrite Hw. cbn [window_at].
  destruct (Z.leb_spec (opened w + windowMs l) now); [lia|].
  destruct (Z.ltb_spec (max l) (hits w + 1)); [|lia].
  rewrite insert_id by exact Hw. reflexivity.
Qed.

Lemma admission_all_app l key ts us (store : gmap string Window) :
  admission_all l key (ts ++ us) store =
  ((fst (admission_all l key ts store) ++
      fst (admission_all l key us (snd (admission_all l key ts store))))%list,
   snd (admission_all l key us (snd (admission_all l key ts store)))).
Proof.
  revert store. induction ts as [|t ts IH]; intros store.
  - cbn [app admission_all fst snd]. destruct (admission_all l key us store); reflexivity.
  - cbn [app admission_all]. destruct (admission l key t store) as [ok store1].
    rewrite IH. destruct (admission_all l key ts store1) as [oks store2].
    cbn [fst snd]. reflexivity.
Qed.

(** Calls inside one open window: the [i]-th is admitted while the counter
    has room, and the counter stops at the maximum. *)
Lemma admission_all_within l key ts : forall (store : gmap string Window) w,
  store !! key = Some w ->
  Forall (fun t => t < opened w + windowMs l)%Z ts ->
  (hits w <= max l)%Z ->
  fst (admission_all l key ts store) =
    map (fun i => (hits w + Z.of_nat i <=? max l)%Z) (seq 1 (List.length ts))
  /\ snd (admission_all l key ts store) !! key =
       Some {| hits := Z.min (max l) (hits w + Z.of_nat (List.length ts));
               opened := opened w |}.
Proof.
  induction ts as [|t ts IH]; intros store w Hw Hin Hle.
  - cbn [admission_all fst snd List.length seq map]. split; [reflexivity|].
    rewrite Hw. destruct w as [h o]. cbn [hits opened] in *. f_equal. f_equal. lia.
  - apply Forall_cons_iff in Hin as [Ht Hts].
    cbn [admission_all List.length seq map].
    destruct (Z.ltb_spec (hits w) (max l)) as [Hroom|Hfull].
    + rewrite (admission_room l key t store w Hw Ht Hroom).
      specialize (IH (<[key := {| hits := hits w + 1; opened := opened w |}]> store)
                     {| hits := hits w + 1; opened := opened w |}).
      cbn [hits opened] in IH.
      destruct IH as [IH1 IH2]; [apply lookup_insert_eq | exact Hts | lia |].
      destruct (admission_all l key ts _) as [oks store']. cbn [fst snd] in *.
      split.
      * f_equal; [symmetry; apply Z.leb_le; lia|].
        rewrite IH1, <- (seq_shift (List.length ts) 1), map_map.
        apply map_ext. intros i. f_equal. lia.
      * rewrite IH2. f_equal. f_equal. lia.
    + rewrite (admission_full l key t store w Hw Ht Hfull).
      specialize (IH store w Hw Hts Hle). destruct IH as [IH1 IH2].
      destruct (admission_all l key ts store) as [oks store']. cbn [fst snd] in *.
      split.
      * f_equal; [symmetry; apply Z.leb_gt; lia|].
        rewrite IH1, <- (seq_shift (List.length ts) 1), map_map.
        apply map_ext_in. intros i Hi. apply in_seq in Hi.
        destruct (Z.leb_spec (hits w + Z.of_nat i) (max l)),
                 (Z.leb_spec (hits w + Z.of_nat (S i)) (max l)); try reflexivity; lia.
      * rewrite IH2. f_equal. f_equal. lia.
Qed.

(** The counter of a key never passes the limiter's maximum. *)
Lemma admission_bound l key now (store : gmap string Window) :
  (0 <= max l)%Z ->
  (forall w, store !! key = Some w -> (0 <= hits w <= max l)%Z) ->
  forall w', snd (admission l key now store) !! key = Some w' -> (0 <= hits w' <= max l)%Z.
Proof.
  intros Hmax Hinv w'. unfold admission.
  set (w := window_at l now (store !! key)).
  assert (Hw : (0 <= hits w <= max l)%Z).
  { subst w. unfold window_at. destruct (store !! key) as [w0|] eqn:Hk.
    - destruct (opened w0 + windowMs l <=? now)%Z; [cbn; lia | apply Hinv; reflexivity].
    - cbn. lia. }
  destruct (Z.ltb_spec (max l) (hits w + 1)); cbn [snd];
    rewrite lookup_insert_eq; intros H'; injection H' as <-; cbn [hits]; lia.
Qed.

Lemma admission_all_bound l key times : forall (store : gmap string Window),
  (0 <= max l)%Z ->
  (forall w, store !! key = Some w -> (0 <= hits w <= max l)%Z) ->
  (0 <= counter key (snd (admission_all l key times store)) <= max l)%Z.
Proof.
  induction times as [|t times IH]; intros store Hmax Hinv.
  - cbn [admission_all snd]. unfold counter.
    destruct (store !! key) as [w|] eqn:Hk; [apply Hinv; reflexivity | lia].
  - cbn [admission_all].
    pose proof (admission_bound l key t store Hmax Hinv) as Hstep.
    destruct (admission l key t store) as [ok store1]. cbn [snd] in Hstep.
    specialize (IH store1 Hmax Hstep).
    destruct (admission_all l key times store1) as [oks store2]. exact IH.
Qed.

(** From a store that has not seen the key: of the calls that fall inside
    the window the first one opens, exactly the first [max] are admitted. *)
Lemma admission_all_new_window l key t0 ts :
  (1 <= max l)%Z ->
  Forall (fun t => t < t0 + windowMs l)%Z ts ->
  fst (admission_all l key (t0 :: ts) ∅) =
    map (fun i => (Z.of_nat i <=? max l)%Z) (seq 1 (S (List.length ts)))
  /\ snd (admission_all l key (t0 :: ts) ∅) !! key =
       Some {| hits := Z.min (max l) (Z.of_nat (S (List.length ts))); opened := t0 |}.
Proof.
  intros Hmax Hts. cbn [admission_all].
  rewrite (admission_fresh l key t0 ∅ Hmax (lookup_empty key)).
  destruct (admission_all_within l key ts
              (<[key := {| hits := 1; opened := t0 |}]> ∅)
              {| hits := 1; opened := t0 |}) as [H1 H2];
    [apply lookup_insert_eq | exact Hts | exact Hmax |].
  cbn [hits opened] in H1, H2.
  destruct (admission_all l key ts _) as [oks store']. cbn [fst snd] in *.
  split.
  - cbn [seq map]. f_equal; [symmetry; apply Z.leb_le; lia|].
    rewrite H1, <- (seq_shift (List.length ts) 1), map_map.
    apply map_ext. intros i. f_equal. lia.
  - rewrite H2. f_equal. f_equal. lia.
Qed.

Lemma tier_positive started l :
  In l [authLimiter started; chainLimiter; aiLimiter; generalLimiter] ->
  (1 <= max l)%Z /\ windowMs l = (15 * 60 * 1000)%Z.
Proof.
  intros [<- | [<- | [<- | [<- | []]]]]; cbn; split; (lia || reflexivity).
Qed.

(** C6. For each of the four tiers (auth 5, chain 10, ai-single-provider 30,
    general 100, all with a 15-minute window) and every client key: the
    first call of a key opens a window with the counter at 0 and is admitted
    and counted; inside the window a call is admitted and increments the
    counter while the counter is below the tier maximum, and a call that
    would exceed the maximum is rejected and leaves the store as it was;
    once the window has elapsed the next call opens a new window and is
    admitted; other keys are untouched, and the counter never passes the
    maximum. In particular, of six auth-tier
    calls of one key of which the first five fall in one window, the sixth
    is rejected if it falls in that window and admitted if the window has
    elapsed. *)
Theorem limiter_window_state_machine (started key : string) (l : Limiter)
    (store : gmap string Window) (now : Z) :
  In l [authLimiter started; chainLimiter; aiLimiter; generalLimiter] ->
  (windowMs l = (15 * 60 * 1000)%Z
   /\ max (authLimiter started) = 5%Z /\ max chainLimiter = 10%Z
   /\ max aiLimiter = 30%Z /\ max generalLimiter = 100%Z)
  /\ (store !! key = None ->
        counter key store = 0%Z
        /\ admission l key now store = (true, <[key := {| hits := 1; opened := now |}]> store))
  /\ (forall w, store !! key = Some w -> (now < opened w + windowMs l)%Z ->
        (hits w < max l)%Z ->
        admission l key now store =
          (true, <[key := {| hits := hits w + 1; opened := opened w |}]> store))
  /\ (forall w, store !! key = Some w -> (now < opened w + windowMs l)%Z ->
        (max l <= hits w)%Z ->
        admission l key now store = (false, store))
  /\ (forall w, store !! key = Some w -> (opened w + windowMs l <= now)%Z ->
        admission l key now store = (true, <[key := {| hits := 1; opened := now |}]> store))
  /\ (forall other, other <> key -> snd (admission l key now store) !! other = store !! other)
  /\ (forall times, (0 <= counter key (snd (admission_all l key times ∅)) <= max l)%Z)
  /\ (forall ts, Forall (fun t => t < now + windowMs l)%Z ts ->
        fst (admission_all l key (now :: ts) ∅) =
          map (fun i => (Z.of_nat i <=? max l)%Z) (seq 1 (S (List.length ts))))
  /\ (forall t1 t2 t3 t4 t5,
        Forall (fun t => t < now + 15 * 60 * 1000)%Z [t1; t2; t3; t4] ->
        ((t5 < now + 15 * 60 * 1000)%Z ->
           fst (admission_all (authLimiter started) key [now; t1; t2; t3; t4; t5] ∅)
           = [true; true; true; true; true; false])
        /\ ((now + 15 * 60 * 1000 <= t5)%Z ->
           fst (admission_all (authLimiter started) key [now; t1; t2; t3; t4; t5] ∅)
           = [true; true; true; true; true; true])).
Proof.
  intros Htier. destruct (tier_positive started l Htier) as [Hmax Hwin].
  split; [repeat split; (exact Hwin || reflexivity)|].
  split; [intros Hnone; split;
          [unfold counter; rewrite Hnone; reflexivity | apply admission_fresh; assumption]|].
  split; [intros w; apply admission_room|].
  split; [intros w; apply admission_full|].
  split; [intros w; apply admission_elapsed; assumption|].
  split; [intros other; apply admission_other|].
  split; [intros times; apply admission_all_bound;
          [lia | intros w0 Hw0; rewrite lookup_empty in Hw0; discriminate]|].
  split; [intros ts Hts; apply admission_all_new_window; assumption|].
  intros t1 t2 t3 t4 t5 Hts.
  set (auth := authLimiter started).
  destruct (admission_all_new_window auth key now [t1; t2; t3; t4]) as [H1 H2];
    [cbn; lia | exact Hts |].
  change [now; t1; t2; t3; t4; t5] with ([now; t1; t2; t3; t4] ++ [t5])%list.
  rewrite admission_all_app. cbn [fst]. rewrite H1.
  set (store5 := snd (admission_all auth key [now; t1; t2; t3; t4] ∅)) in *.
  cbn [List.length hits opened] in H2.
  change (Z.min (max auth) (Z.of_nat 5)) with 5%Z in H2.
  cbn [admission_all]. split; intros Ht5.
  - rewrite (admission_full auth key t5 store5 _ H2); [reflexivity | exact Ht5 | cbn; lia].
  - rewrite (admission_elapsed auth key t5 store5 _ ltac:(cbn; lia) H2); [reflexivity | exact Ht5].
Qed.

(** C6 for one client of the auth limiter: six calls a second apart, and
    six calls of which the last comes when the window has elapsed. *)
Lemma limiter_window_state_machine_witness :
  fst (admission_all (authLimiter "2024-01-01T00:00:00.000Z") "203.0.113.7"
         [0; 1000; 2000; 3000; 4000; 5000]%Z ∅)
    = [true; true; true; true; true; false]
  /\ fst (admission_all (authLimiter "2024-01-01T00:00:00.000Z") "203.0.113.7"
         [0; 1000; 2000; 3000; 4000; 900000]%Z ∅)
    = [true; true; true; true; true; true].
Proof.
  pose proof (limiter_window_state_machine "2024-01-01T00:00:00.000Z" "203.0.113.7"
                (authLimiter "2024-01-01T00:00:00.000Z") ∅ 0%Z
                (or_introl eq_refl)) as H.
  destruct H as (_ & _ & _ & _ & _ & _ & _ & _ & Hsix).
  split.
  - apply (Hsix 1000 2000 3000 4000 5000)%Z; [repeat constructor; lia | lia].
  - apply (Hsix 1000 2000 3000 4000 900000)%Z; [repeat constructor; lia | lia].
Defined.

End RateLimitFacts.

(** ** Route handlers *)

Section RouteFacts.
Import Routes.
Local Open Scope Z_scope.

Variable toISOString : Z -> string.
Variable net : Network.
Variable is_email : string -> bool.

Lemma call_unfold target p w :
  call net target p w =
    (snd (net target p (now w)),
     {| now := now w + fst (net target p (now w));
        calls := calls w ++ [{| url := target; prompt := p |}] |}).
Proof. unfold call. destruct (net target p (now w)); reflexivity. Qed.

Lemma read_length_defined v : nullish v = false -> read_length v = Ok tt.
Proof. destruct v as [[]|]; (discriminate || reflexivity). Qed.

Lemma read_length_nullish v : nullish v = true -> exists e, read_length v = Throw e.
Proof. destruct v as [[]|]; try discriminate; intros _; eexists; reflexivity. Qed.

Lemma nullish_some (v : json) : v <> JNull -> nullish (Some v) = false.
Proof. destruct v; (congruence || reflexivity). Qed.

Lemma count_after_scira w input dt :
  call_count deepseek_url
    {| now := dt; calls := calls w ++ [{| url := scira_url; prompt := input |}] |}
  = call_count deepseek_url w.
Proof.
  unfold call_count. cbn [calls]. rewrite List.filter_app, length_app.
  cbn. lia.
Qed.

(** C3. When both stages succeed - the Scira call returns data whose output
    is [v1] and the DeepSeek call, made with [v1] as its prompt, returns
    data whose output is [v2] - the chain answers 200 with the body
    [{ output, chain: { scira, deepseek }, metadata }] in which [output] and
    [chain.deepseek] are [v2], the second stage's output on the first
    stage's output on the original input, and [chain.scira] is [v1]; the
    vendors were called once each, in that order. *)
Theorem chain_success (input : value) (w : World) (v1 v2 : json) :
  nullish input = false ->
  stage_yields (snd (net scira_url input (now w))) v1 ->
  stage_yields
    (snd (net deepseek_url (Some v1) (now w + fst (net scira_url input (now w))))) v2 ->
  exists took,
    chain_handler toISOString net input w =
      (Ok {| code := 200;
             body := JObj [("output", v2);
                           ("chain", JObj [("scira", v1); ("deepseek", v2)]);
                           ("metadata",
                            JObj [("processingTime", JNum took);
                                  ("timestamp", JStr (toISOString (now w + took)))])] |},
       {| now := now w + took;
          calls := calls w ++ [{| url := scira_url; prompt := input |};
                               {| url := deepseek_url; prompt := Some v1 |}] |})
    /\ took = (fst (net scira_url input (now w))
               + fst (net deepseek_url (Some v1)
                        (now w + fst (net scira_url input (now w)))))%Z.
Proof.
  intros Hin [d1 [Hs1 [Ho1 Hv1]]] [d2 [Hs2 [Ho2 Hv2]]].
  eexists. split; [|reflexivity].
  unfold chain_handler, bind, try_catch, lift, date_now, ret, metadata.
  rewrite (read_length_defined input Hin).
  rewrite call_unfold, Hs1. cbn [now calls]. rewrite Ho1.
  rewrite (read_length_defined (Some v1) (nullish_some v1 Hv1)).
  rewrite call_unfold. cbn [now calls]. rewrite Hs2, Ho2.
  rewrite (read_length_defined (Some v2) (nullish_some v2 Hv2)).
  cbn [object bind ret date_now now calls].
  rewrite <- app_assoc. cbn [app].
  set (dt1 := fst (net scira_url input (now w))).
  set (dt2 := fst (net deepseek_url (Some v1) (now w + dt1))).
  replace (now w + dt1 + dt2 - now w) with (dt1 + dt2) by lia.
  rewrite <- Z.add_assoc. reflexivity.
Qed.

Lemma chain_catch_vendor startTime (e : Error) vendor w :
  response e = Some vendor ->
  chain_catch toISOString startTime e w =
    (Ok {| code := status vendor;
           body := JObj [("error", JStr "API service error");
                         ("details", data vendor);
                         ("metadata",
                          JObj [("processingTime", JNum (now w - startTime));
                                ("timestamp", JStr (toISOString (now w)))])] |}, w).
Proof.
  intros He. unfold chain_catch, metadata, bind, date_now, ret. cbn. rewrite He. reflexivity.
Qed.

Lemma chain_catch_other startTime (e : Error) w :
  response e = None ->
  chain_catch toISOString startTime e w =
    (Ok {| code := 500;
           body := JObj [("error", JStr "Chaining failed. Please check logs.");
                         ("metadata",
                          JObj [("processingTime", JNum (now w - startTime));
                                ("timestamp", JStr (toISOString (now w)))])] |}, w).
Proof.
  intros He. unfold chain_catch, metadata, bind, date_now, ret. cbn. rewrite He. reflexivity.
Qed.

Lemma chain_catch_replies startTime (e : Error) w :
  exists reply, chain_catch toISOString startTime e w = (Ok reply, w).
Proof.
  destruct (response e) as [vendor|] eqn:He.
  - eexists. apply chain_catch_vendor. exact He.
  - eexists. apply chain_catch_other. exact He.
Qed.

(** The chain when its first stage fails: one call, then the [catch] block. *)
Lemma chain_first_stage_fails (input : value) (w : World) :
  nullish input = false ->
  stage_fails (snd (net scira_url input (now w))) ->
  exists error,
    (snd (net scira_url input (now w)) = Throw error
     \/ response error = None)
    /\ chain_handler toISOString net input w =
       chain_catch toISOString (now w) error
         {| now := now w + fst (net scira_url input (now w));
            calls := calls w ++ [{| url := scira_url; prompt := input |}] |}.
Proof.
  intros Hin Hfail.
  unfold chain_handler, bind, try_catch, lift, date_now.
  rewrite (read_length_defined input Hin), call_unfold.
  destruct (snd (net scira_url input (now w))) as [d1|e] eqn:Hs1.
  - cbn [stage_fails] in Hfail.
    destruct (output_or_result d1) as [v|e] eqn:Ho.
    + destruct v as [[]|]; try discriminate Hfail;
        (eexists; split; [|reflexivity]; right; reflexivity).
    + exists e. split; [right|reflexivity].
      unfold output_or_result, get in Ho. destruct d1; try discriminate Ho;
        try (injection Ho as <-; reflexivity).
      destruct (truthy (field (JObj fields) "output")); discriminate Ho.
  - exists e. split; [left|]; reflexivity.
Qed.

(** C1 (as the handler has it). Whenever the first stage (Scira) fails -
    its call throws, or the output of its answer cannot be read - the chain
    makes no call besides that one Scira call: the DeepSeek call count does
    not move, and the handler answers with what its [catch] block makes of
    the error (the vendor's status and data when the vendor answered,
    otherwise 500), the same block whichever stage failed. *)
Theorem chain_fail_fast (input : value) (w : World) :
  nullish input = false ->
  stage_fails (snd (net scira_url input (now w))) ->
  exists error reply after,
    chain_handler toISOString net input w = (Ok reply, after)
    /\ calls after = (calls w ++ [{| url := scira_url; prompt := input |}])%list
    /\ call_count deepseek_url after = call_count deepseek_url w
    /\ chain_catch toISOString (now w) error after = (Ok reply, after)
    /\ (code reply = 500
        \/ exists vendor,
             snd (net scira_url input (now w)) = Throw error
             /\ response error = Some vendor /\ code reply = status vendor).
Proof.
  intros Hin Hfail.
  destruct (chain_first_stage_fails input w Hin Hfail) as [error [Hwhy Hrun]].
  set (after := {| now := now w + fst (net scira_url input (now w));
                   calls := calls w ++ [{| url := scira_url; prompt := input |}] |}) in *.
  destruct (chain_catch_replies (now w) error after) as [reply Hreply].
  exists error, reply, after.
  split; [rewrite Hrun; exact Hreply|].
  split; [reflexivity|].
  split; [apply count_after_scira|].
  split; [exact Hreply|].
  destruct (response error) as [vendor|] eqn:Hresp.
  - right. exists vendor.
    destruct Hwhy as [Hthrown|Hnone]; [|discriminate Hnone].
    rewrite (chain_catch_vendor _ _ _ _ Hresp) in Hreply.
    injection Hreply as <-. repeat split; assumption.
  - left. rewrite (chain_catch_other _ _ _ Hresp) in Hreply.
    injection Hreply as <-. reflexivity.
Qed.


Lemma ensures_ret {A} (a : A) (P : A -> Prop) : P a -> ensures (ret a) P.
Proof. intros Ha w a' w' H. injection H as <- _. exact Ha. Qed.

Lemma ensures_bind {A B} (m : M A) (k : A -> M B) (Q : A -> Prop) (P : B -> Prop) :
  ensures m Q -> (forall a, Q a -> ensures (k a) P) -> ensures (bind m k) P.
Proof.
  intros Hm Hk w b w' H. unfold bind in H.
  destruct (m w) as [[a|e] w1] eqn:Hmw; [|discriminate H].
  exact (Hk a (Hm _ _ _ Hmw) _ _ _ H).
Qed.

Lemma ensures_try {A} (body : M A) (handler : Error -> M A) (P : A -> Prop) :
  ensures body P -> (forall e, ensures (handler e) P) -> ensures (try_catch body handler) P.
Proof.
  intros Hb Hh w a w' H. unfold try_catch in H.
  destruct (body w) as [[a'|e] w1] eqn:Hbw.
  - injection H as <- _. exact (Hb _ _ _ Hbw).
  - exact (Hh e _ _ _ H).
Qed.

Lemma ensures_any {A} (m : M A) : ensures m (fun _ => True).
Proof. intros w a w' _. exact I. Qed.

Lemma ensures_metadata startTime : ensures (metadata toISOString startTime) is_metadata.
Proof.
  intros w m w' H. unfold metadata, bind, date_now, ret in H.
  injection H as <- _. eexists _, _. reflexivity.
Qed.

Lemma envelope_with_output (o : value) (m : json) (between : list (string * value)) :
  is_metadata m ->
  (forall k v, In (k, v) between -> k <> "metadata") ->
  has_envelope (JObj (object (("output", o) :: between ++ [("metadata", Some m)]))) = true.
Proof.
  intros [ms [stamp ->]] Hbetween.
  assert (Hrest : assoc "metadata" (object (between ++ [("metadata",
            Some (JObj [("processingTime", JNum ms); ("timestamp", JStr stamp)]))]))
          = Some (JObj [("processingTime", JNum ms); ("timestamp", JStr stamp)])).
  { induction between as [|[k v] rest IH]; [reflexivity|].
    cbn [app object]. destruct v as [v|].
    - cbn [assoc]. destruct (String.eqb "metadata" k) eqn:E.
      + apply String.eqb_eq in E. exfalso. apply (Hbetween k (Some v)); [left; reflexivity | auto].
      + apply IH. intros k' v' Hin. apply (Hbetween k' v'). right. exact Hin.
    - apply IH. intros k' v' Hin. apply (Hbetween k' v'). right. exact Hin. }
  unfold has_envelope, field. destruct o as [o|]; cbn [object assoc];
    change (String.eqb "metadata" "output") with false; cbn iota;
    rewrite ?Hrest; reflexivity.
Qed.

Lemma envelope_of_error (fields : list (string * json)) (m : json) :
  is_metadata m ->
  assoc "metadata" fields = None ->
  has_envelope (JObj (fields ++ [("metadata", m)])) = true.
Proof.
  intros [ms [stamp ->]] Hnone. unfold has_envelope, field.
  assert (H : assoc "metadata" (fields ++ [("metadata",
            JObj [("processingTime", JNum ms); ("timestamp", JStr stamp)])])
          = Some (JObj [("processingTime", JNum ms); ("timestamp", JStr stamp)])).
  { induction fields as [|[k v] rest IH]; [reflexivity|].
    cbn [app assoc] in *. destruct (String.eqb "metadata" k); [discriminate|]. auto. }
  rewrite H. reflexivity.
Qed.

Lemma chain_handler_envelope input :
  ensures (chain_handler toISOString net input) (fun r => has_envelope (body r) = true).
Proof.
  unfold chain_handler.
  eapply ensures_bind; [apply ensures_any|]. intros startTime _.
  eapply ensures_bind; [apply ensures_any|]. intros _ _.
  apply ensures_try.
  - eapply ensures_bind; [apply ensures_any|]. intros sciraRes _.
    eapply ensures_bind; [apply ensures_any|]. intros sciraOutput _.
    eapply ensures_bind; [apply ensures_any|]. intros _ _.
    eapply ensures_bind; [apply ensures_any|]. intros deepSeekRes _.
    eapply ensures_bind; [apply ensures_any|]. intros deepSeekOutput _.
    eapply ensures_bind; [apply ensures_any|]. intros _ _.
    eapply ensures_bind; [apply ensures_any|]. intros _ _.
    eapply ensures_bind; [apply ensures_metadata|]. intros meta Hmeta.
    apply ensures_ret. cbn [body].
    apply (envelope_with_output deepSeekOutput meta
             [("chain", Some (JObj (object [("scira", sciraOutput);
                                            ("deepseek", deepSeekOutput)])))] Hmeta).
    intros k v [H|[]]. injection H as <- _. discriminate.
  - intros e. unfold chain_catch.
    eapply ensures_bind; [apply ensures_metadata|]. intros meta Hmeta.
    destruct (response e) as [vendor|]; apply ensures_ret; cbn [body].
    + apply (envelope_of_error [("error", JStr "API service error");
                                ("details", data vendor)] meta Hmeta). reflexivity.
    + apply (envelope_of_error [("error", JStr "Chaining failed. Please check logs.")]
               meta Hmeta). reflexivity.
Qed.

Lemma single_handler_envelope target failure input :
  ensures (single_handler toISOString net target failure input)
          (fun r => has_envelope (body r) = true).
Proof.
  unfold single_handler.
  eapply ensures_bind; [apply ensures_any|]. intros startTime _.
  eapply ensures_bind; [apply ensures_any|]. intros _ _.
  apply ensures_try.
  - eapply ensures_bind; [apply ensures_any|]. intros res _.
    eapply ensures_bind; [apply ensures_any|]. intros output _.
    eapply ensures_bind; [apply ensures_any|]. intros _ _.
    eapply ensures_bind; [apply ensures_metadata|]. intros meta Hmeta.
    apply ensures_ret. cbn [body].
    apply (envelope_with_output output meta [] Hmeta). intros k v [].
  - intros e.
    eapply ensures_bind; [apply ensures_metadata|]. intros meta Hmeta.
    apply ensures_ret. cbn [body].
    apply (envelope_of_error [("error", JStr failure)] meta Hmeta). reflexivity.
Qed.

Lemma openrouter_handler_envelope failure read input startTime :
  ensures (openrouter_handler toISOString net failure read input startTime)
          (fun r => has_envelope (body r) = true).
Proof.
  unfold openrouter_handler. apply ensures_try.
  - eapply ensures_bind; [apply ensures_any|]. intros completion _.
    eapply ensures_bind; [apply ensures_any|]. intros content _.
    eapply ensures_bind; [apply ensures_any|]. intros _ _.
    eapply ensures_bind; [apply ensures_metadata|]. intros meta Hmeta.
    apply ensures_ret. cbn [body].
    apply (envelope_with_output _ meta [] Hmeta). intros k v [].
  - intros e.
    eapply ensures_bind; [apply ensures_metadata|]. intros meta Hmeta.
    apply ensures_ret. cbn [body].
    apply (envelope_of_error [("error", JStr failure); ("details", JStr (message e))]
             meta Hmeta). reflexivity.
Qed.

Lemma deepseek_handler_envelope input :
  ensures (deepseek_handler toISOString net input) (fun r => has_envelope (body r) = true).
Proof.
  unfold deepseek_handler.
  eapply ensures_bind; [apply ensures_any|]. intros startTime _.
  eapply ensures_bind; [apply ensures_any|]. intros _ _.
  apply openrouter_handler_envelope.
Qed.

Lemma deepseek_handler_open_envelope input :
  ensures (deepseek_handler_open toISOString net input)
          (fun r => has_envelope (body r) = true).
Proof.
  unfold deepseek_handler_open.
  eapply ensures_bind; [apply ensures_any|]. intros startTime _.
  apply openrouter_handler_envelope.
Qed.

(** C7 (as the handlers have it). Every reply of the chain handler and of
    the single-provider handlers, success or failure, carries a [metadata]
    object with [processingTime] in milliseconds and a [timestamp] string.
    The rejections sent by the middleware do not: a validation rejection
    (400, or 500 for an unknown schema) is [{ error, details }] only, a
    rate-limit rejection of the general, ai, chain and development limiters
    is [{ error, retryAfter }] only, and the auth limiter's message has a
    [metadata] with a [timestamp] but no [processingTime]. *)
Theorem handler_replies_carry_envelope (input : value) (w : World) (reply : Reply) :
  (fst (chain_handler toISOString net input w) = Ok reply
   \/ fst (scira_handler toISOString net input w) = Ok reply
   \/ fst (deepseek_http_handler toISOString net input w) = Ok reply
   \/ fst (deepseek_handler toISOString net input w) = Ok reply
   \/ fst (deepseek_handler_open toISOString net input w) = Ok reply) ->
  has_envelope (body reply) = true
  /\ (forall name obj rejected,
        Validation.validate is_email name obj = Validation.Respond rejected ->
        has_envelope (body rejected) = false)
  /\ (forall l,
        In l [RateLimit.generalLimiter; RateLimit.aiLimiter;
              RateLimit.chainLimiter; RateLimit.devLimiter] ->
        RateLimit.rejection l
          = RateLimit.too_many
              (match field (body (RateLimit.rejection l)) "error" with
               | Some (JStr text) => text
               | _ => ""
               end)
        /\ has_envelope (body (RateLimit.rejection l)) = false)
  /\ (forall started,
        has_envelope (body (RateLimit.rejection (RateLimit.authLimiter started))) = false).
Proof.
  intros Hreply. split; [|split; [|split]].
  - assert (Hrun : forall (m : M Reply),
               ensures m (fun r => has_envelope (body r) = true) ->
               fst (m w) = Ok reply -> has_envelope (body reply) = true).
    { intros m Hm H. destruct (m w) as [r w'] eqn:Hmw. cbn [fst] in H. subst r.
      exact (Hm _ _ _ Hmw). }
    destruct Hreply as [H|[H|[H|[H|H]]]]; revert H; apply Hrun.
    + apply chain_handler_envelope.
    + apply single_handler_envelope.
    + apply single_handler_envelope.
    + apply deepseek_handler_envelope.
    + apply deepseek_handler_open_envelope.
  - intros name obj rejected. unfold Validation.validate.
    destruct (Validation.find_schema name Validation.schemas) as [schema|].
    + destruct (Validation.schema_validate is_email schema obj) as [[|d ds] value];
        [discriminate|]. intros H. injection H as <-. reflexivity.
    + intros H. injection H as <-. reflexivity.
  - intros l [<- | [<- | [<- | [<- | []]]]]; split; reflexivity.
  - intros started. reflexivity.
Qed.


(** C5. For the deepseek and the gemini schema: a body whose [input] is a
    string of 1 to 10000 characters is accepted and handed on (with unknown
    fields stripped), and on the /deepseek route the handler then runs on
    that string; a body whose [input] is absent, empty or longer than 10000
    characters is rejected with 400 and a field-level error naming [input],
    and the route answers without any provider call. *)
Theorem validation_bounds (name : string) (NODE_ENV : option string)
    (req : Request) (store : gmap string RateLimit.Window) (w : World) :
  name = "deepseek" \/ name = "gemini" ->
  (Validation.input_within_bounds (req_body req) ->
     Validation.validate is_email name (req_body req)
       = Validation.Next
           (Validation.strip_unknown [("input", Validation.input_schema)] (req_body req))
     /\ (fst (RateLimit.admission (RateLimit.ai (RateLimit.getRateLimiters NODE_ENV))
                (ip req) (now w) store) = true ->
         fst (post_deepseek toISOString is_email net NODE_ENV req store w)
           = (fst (deepseek_handler toISOString net (assoc "input" (req_body req)) w),
              snd (RateLimit.admission (RateLimit.ai (RateLimit.getRateLimiters NODE_ENV))
                     (ip req) (now w) store))
         /\ snd (post_deepseek toISOString is_email net NODE_ENV req store w)
            = snd (deepseek_handler toISOString net (assoc "input" (req_body req)) w)))
  /\ (Validation.input_out_of_bounds (req_body req) ->
      (exists r, Validation.validate is_email name (req_body req) = Validation.Respond r
                 /\ code r = 400 /\ Validation.names_field "input" r)
      /\ snd (post_deepseek toISOString is_email net NODE_ENV req store w) = w
      /\ exists reply,
           fst (fst (post_deepseek toISOString is_email net NODE_ENV req store w)) = Ok reply
           /\ (reply = RateLimit.rejection (RateLimit.ai (RateLimit.getRateLimiters NODE_ENV))
               \/ (code reply = 400 /\ Validation.names_field "input" reply))).
Proof.
  intros Hname. split.
  - intros Hgood. split; [apply accepts_within_bounds; assumption|].
    intros Hadm. unfold post_deepseek.
    destruct (RateLimit.admission _ (ip req) (now w) store) as [ok store'].
    cbn [fst snd] in *. subst ok.
    unfold Validation.validateDeepSeek.
    rewrite (accepts_within_bounds is_email "deepseek" _ (or_introl eq_refl) Hgood).
    rewrite assoc_strip_unknown by reflexivity.
    destruct (deepseek_handler toISOString net (assoc "input" (req_body req)) w).
    split; reflexivity.
  - intros Hbad. split; [apply rejects_out_of_bounds; assumption|].
    destruct (rejects_out_of_bounds is_email "deepseek" _ (or_introl eq_refl) Hbad)
      as [r [Hr [Hcode Hfield]]].
    unfold post_deepseek.
    destruct (RateLimit.admission _ (ip req) (now w) store) as [[|] store'].
    + unfold Validation.validateDeepSeek. rewrite Hr. cbn [fst snd].
      split; [reflexivity|]. exists r. split; [reflexivity|]. right. split; assumption.
    + cbn [fst snd]. split; [reflexivity|]. eexists. split; [reflexivity|]. left. reflexivity.
Qed.

End RouteFacts.

(** ** Concrete runs *)

Section Runs.
Import Routes.
Local Open Scope Z_scope.

(** C9 on a body with two unknown fields around [input]. *)
Lemma validate_idempotent_witness :
  Validation.validate Validation.has_at_sign "deepseek" [("model", JStr "r1"); ("input", JStr "hello"); ("n", JNum 2)]
    = Validation.Next [("input", JStr "hello")]
  /\ Validation.validate Validation.has_at_sign "deepseek" [("input", JStr "hello")] = Validation.Next [("input", JStr "hello")].
Proof.
  split; [reflexivity|].
  apply (validate_idempotent Validation.has_at_sign "deepseek"
           [("model", JStr "r1"); ("input", JStr "hello"); ("n", JNum 2)]).
  reflexivity.
Defined.

(** C3 with the first stage answering X and the second answering Y. *)
Lemma chain_success_witness :
  exists took,
    chain_handler fixed_stamp (stub 40 (answers "X") (answers "Y")) (Some (JStr "hello")) start =
      (Ok {| code := 200;
             body := JObj [("output", JStr "Y");
                           ("chain", JObj [("scira", JStr "X"); ("deepseek", JStr "Y")]);
                           ("metadata",
                            JObj [("processingTime", JNum took);
                                  ("timestamp", JStr (fixed_stamp (0 + took)))])] |},
       {| now := 0 + took;
          calls := [{| url := scira_url; prompt := Some (JStr "hello") |};
                    {| url := deepseek_url; prompt := Some (JStr "X") |}] |})
    /\ took = 40 + 40.
Proof.
  apply (chain_success fixed_stamp (stub 40 (answers "X") (answers "Y"))
           (Some (JStr "hello")) start (JStr "X") (JStr "Y")).
  - reflexivity.
  - eexists. split; [reflexivity|]. split; [reflexivity | discriminate].
  - eexists. split; [reflexivity|]. split; [reflexivity | discriminate].
Defined.

(** The second stage echoing its prompt: the chain's output is the first
    stage's output. *)
Example chain_with_echo :
  fst (chain_handler fixed_stamp (stub 0 (answers "A-out") echoes) (Some (JStr "x")) start)
  = Ok {| code := 200;
          body := JObj [("output", JStr "A-out");
                        ("chain", JObj [("scira", JStr "A-out"); ("deepseek", JStr "A-out")]);
                        ("metadata",
                         JObj [("processingTime", JNum 0);
                               ("timestamp", JStr (fixed_stamp 0))])] |}.
Proof. reflexivity. Qed.

(** C1 with the first vendor unreachable. *)
Lemma chain_fail_fast_witness :
  exists error reply after,
    chain_handler fixed_stamp first_down (Some (JStr "hello")) start = (Ok reply, after)
    /\ calls after = [{| url := scira_url; prompt := Some (JStr "hello") |}]
    /\ call_count deepseek_url after = call_count deepseek_url start
    /\ chain_catch fixed_stamp 0 error after = (Ok reply, after)
    /\ (code reply = 500
        \/ exists vendor,
             snd (first_down scira_url (Some (JStr "hello")) 0) = Throw error
             /\ response error = Some vendor /\ code reply = status vendor).
Proof.
  apply (chain_fail_fast fixed_stamp first_down (Some (JStr "hello")) start).
  - reflexivity.
  - exact I.
Defined.

(** C1, the part that fails: with the first vendor down, and with the first
    vendor answering and the second down, the chain sends one and the same
    reply, so no reading of the reply tells which stage failed. *)
Lemma chain_error_hides_stage :
  stage_fails (snd (first_down scira_url (Some (JStr "hello")) 0))
  /\ stage_yields (snd (second_down scira_url (Some (JStr "hello")) 0)) (JStr "X")
  /\ stage_fails (snd (second_down deepseek_url (Some (JStr "X")) 0))
  /\ fst (chain_handler fixed_stamp first_down (Some (JStr "hello")) start)
     = fst (chain_handler fixed_stamp second_down (Some (JStr "hello")) start)
  /\ fst (chain_handler fixed_stamp first_down (Some (JStr "hello")) start)
     = Ok {| code := 500;
             body := JObj [("error", JStr "Chaining failed. Please check logs.");
                           ("metadata",
                            JObj [("processingTime", JNum 0);
                                  ("timestamp", JStr (fixed_stamp 0))])] |}
  /\ ~ (exists identify : Reply -> string,
          forall failing : Network,
            (stage_fails (snd (failing scira_url (Some (JStr "hello")) 0)) ->
             exists reply,
               fst (chain_handler fixed_stamp failing (Some (JStr "hello")) start) = Ok reply
               /\ identify reply = "scira")
            /\ (stage_yields (snd (failing scira_url (Some (JStr "hello")) 0)) (JStr "X") ->
                stage_fails (snd (failing deepseek_url (Some (JStr "X")) 0)) ->
                exists reply,
                  fst (chain_handler fixed_stamp failing (Some (JStr "hello")) start) = Ok reply
                  /\ identify reply = "deepseek")).
Proof.
  assert (Hyield : stage_yields (snd (second_down scira_url (Some (JStr "hello")) 0)) (JStr "X")).
  { eexists. split; [reflexivity|]. split; [reflexivity | discriminate]. }
  split; [exact I|]. split; [exact Hyield|]. split; [exact I|].
  split; [reflexivity|]. split; [reflexivity|].
  intros [identify H].
  destruct (H first_down) as [H1 _]. destruct (H second_down) as [_ H2].
  destruct (H1 I) as [r1 [Hr1 Hid1]].
  destruct (H2 Hyield I) as [r2 [Hr2 Hid2]].
  cbv in Hr1, Hr2. injection Hr1 as <-. injection Hr2 as <-.
  rewrite Hid1 in Hid2. discriminate Hid2.
Qed.




(** C5 on an accepted body, on an input of 10001 characters, and on a
    request without [input]. *)
Lemma validation_bounds_witness :
  Validation.validate Validation.has_at_sign "deepseek" [("input", JStr "hello"); ("model", JStr "r1")]
    = Validation.Next [("input", JStr "hello")]
  /\ (exists r,
        Validation.validate Validation.has_at_sign "gemini"
          [("input", JStr (Validation.repeat_char "a" (Z.to_nat 10001)))]
          = Validation.Respond r
        /\ code r = 400 /\ Validation.names_field "input" r)
  /\ snd (post_deepseek fixed_stamp Validation.has_at_sign silent None
            {| ip := "203.0.113.7"; req_body := [("prompt", JStr "hello")] |} ∅ start)
     = start.
Proof.
  split; [|split].
  - apply (validation_bounds fixed_stamp silent Validation.has_at_sign "deepseek" None
             {| ip := "203.0.113.7";
                req_body := [("input", JStr "hello"); ("model", JStr "r1")] |} ∅ start).
    + left. reflexivity.
    + exists "hello". split; [reflexivity|]. cbn. lia.
  - apply (validation_bounds fixed_stamp silent Validation.has_at_sign "gemini" None
             {| ip := "203.0.113.7";
                req_body := [("input", JStr (Validation.repeat_char "a" (Z.to_nat 10001)))] |}
             ∅ start).
    + right. reflexivity.
    + right. right. eexists. split; [reflexivity|]. vm_compute. reflexivity.
  - apply (validation_bounds fixed_stamp silent Validation.has_at_sign "deepseek" None
             {| ip := "203.0.113.7"; req_body := [("prompt", JStr "hello")] |} ∅ start).
    + left. reflexivity.
    + left. reflexivity.
Defined.

(** C7 (as the handlers have it) on the reply to an unreachable first vendor. *)
Lemma handler_replies_carry_envelope_witness :
  has_envelope
    (JObj [("error", JStr "Chaining failed. Please check logs.");
           ("metadata",
            JObj [("processingTime", JNum 0); ("timestamp", JStr (fixed_stamp 0))])])
  = true.
Proof.
  apply (handler_replies_carry_envelope fixed_stamp first_down Validation.has_at_sign (Some (JStr "hello")) start
           {| code := 500;
              body := JObj [("error", JStr "Chaining failed. Please check logs.");
                            ("metadata",
                             JObj [("processingTime", JNum 0);
                                   ("timestamp", JStr (fixed_stamp 0))])] |}).
  left. reflexivity.
Defined.

(** C7, as stated, fails: the validation rejection of an empty body and the
    chain limiter's rejection have no [metadata]. *)
Lemma rejections_lack_envelope :
  Validation.validate Validation.has_at_sign "deepseek" []
    = Validation.Respond
        {| code := 400;
           body := JObj [("error", JStr "Validation failed");
                         ("details",
                          JArr [JObj [("field", JStr "input");
                                      ("message", JStr "Input is required")]])] |}
  /\ has_envelope
       (JObj [("error", JStr "Validation failed");
              ("details",
               JArr [JObj [("field", JStr "input");
                           ("message", JStr "Input is required")]])]) = false
  /\ fst (fst (post_deepseek fixed_stamp Validation.has_at_sign silent None
                 {| ip := "203.0.113.7"; req_body := [] |} ∅ start))
     = Ok {| code := 400;
             body := JObj [("error", JStr "Validation failed");
                           ("details",
                            JArr [JObj [("field", JStr "input");
                                        ("message", JStr "Input is required")]])] |}
  /\ RateLimit.rejection RateLimit.chainLimiter
     = {| code := 429;
          body := JObj [("error",
                         JStr "Too many chain requests from this IP, please try again later.");
                        ("retryAfter", JStr "15 minutes")] |}
  /\ has_envelope (body (RateLimit.rejection RateLimit.chainLimiter)) = false.
Proof. repeat split. Qed.

End Runs.

(* ===================================================================== *)
(** * Further properties of the code *)
(* ===================================================================== *)

(** ** Validation and password rules *)

Section MoreValidationFacts.
Import Regex Password Validation.

Variable is_email : string -> bool.



(** X2. What [validate] decides depends only on the fields its schema
    declares: two bodies that agree on every declared key are both rejected
    with the same reply or both accepted, whatever other fields they carry,
    and an accepted body is handed on with declared keys only. *)
Theorem validate_reads_declared_fields (name : string) (schema : ObjectSchema)
    (obj1 obj2 : list (string * json)) :
  find_schema name schemas = Some schema ->
  (forall k, declared schema k = true -> assoc k obj1 = assoc k obj2) ->
  match validate is_email name obj1, validate is_email name obj2 with
  | Respond r1, Respond r2 => r1 = r2
  | Next kept1, Next kept2 =>
      (forall k v, In (k, v) kept1 -> declared schema k = true)
      /\ (forall k v, In (k, v) kept2 -> declared schema k = true)
  | _, _ => False
  end.
Proof.
  intros Hs Hagree. unfold validate. rewrite Hs.
  assert (Herr : fst (schema_validate is_email schema obj1)
                 = fst (schema_validate is_email schema obj2)).
  { unfold schema_validate. cbn [fst]. apply flat_map_agree. intros entry Hin.
    rewrite (Hagree (fst entry) (declared_here schema entry Hin)). reflexivity. }
  unfold schema_validate in *. cbn [fst] in Herr. rewrite Herr. clear Herr.
  destruct (flat_map _ schema) as [|d ds]; cbv beta iota zeta; [|reflexivity].
  split; intros k v Hin; unfold strip_unknown in Hin;
    destruct (proj1 (List.filter_In _ _ _) Hin) as [_ H]; exact H.
Qed.

Lemma test_first_line cls (s : string) :
  test cls (first_line s) = true -> test cls s = true.
Proof.
  unfold test. induction s as [|c s IH]; [trivial|].
  cbn [first_line]. destruct (line_terminator c); [discriminate|].
  cbn [list_ascii_of_string existsb]. intros H.
  apply orb_true_iff in H as [H|H]; apply orb_true_iff; [left|right]; auto.
Qed.

(** X3. A body that the validator of the deepseek or the gemini schema
    hands on has [input] bound to a string of 1 to 10000 characters, in the
    body received and in the body handed on, and the body handed on has no
    other key. *)
Theorem accepted_input_is_bounded (name : string) (obj obj' : list (string * json)) :
  name = "deepseek" \/ name = "gemini" ->
  validate is_email name obj = Next obj' ->
  exists s,
    assoc "input" obj = Some (JStr s)
    /\ assoc "input" obj' = Some (JStr s)
    /\ (1 <= Z.of_nat (String.length s) <= 10000)%Z
    /\ forall k v, In (k, v) obj' -> k = "input".
Proof.
  intros Hname H.
  destruct (validate_next is_email _ _ _ H) as [schema [Hs [Herr ->]]].
  assert (Hschema : schema = [("input", input_schema)]).
  { destruct Hname as [-> | ->]; cbn in Hs; injection Hs as <-; reflexivity. }
  subst schema. unfold schema_validate in Herr. cbn [fst snd flat_map] in Herr.
  rewrite app_nil_r in Herr.
  destruct (assoc "input" obj) as [[| | |s| |]|] eqn:Hin; try discriminate Herr.
  exists s. unfold check_string in Herr.
  destruct (String.eqb s "") eqn:Hempty; [discriminate Herr|].
  cbn [s_rules input_schema flat_map check_rule] in Herr.
  destruct (Z.ltb_spec (Z.of_nat (String.length s)) 1); [discriminate Herr|].
  destruct (Z.ltb_spec 10000 (Z.of_nat (String.length s))); [discriminate Herr|].
  split; [reflexivity|]. split; [|split; [lia|]].
  - rewrite assoc_strip_unknown by reflexivity. exact Hin.
  - intros k v Hkv. unfold strip_unknown in Hkv.
    destruct (proj1 (List.filter_In _ _ _) Hkv) as [_ Hd].
    unfold declared in Hd. cbn in Hd.
    destruct (String.eqb_spec k "input"); [assumption | discriminate Hd].
Qed.

(** X4. A registration body that the userRegister schema accepts has a
    password of 6 to 128 characters with a lowercase letter, an uppercase
    letter and a digit, so [validatePasswordStrength] can only find the
    special character missing: its strength is 4 or 5, its errors are none
    or the special-character message alone, and it is valid exactly when
    the password has a special character. *)
Theorem register_password_strength_gap (obj obj' : list (string * json)) :
  validate is_email "userRegister" obj = Next obj' ->
  exists p,
    assoc "password" obj' = Some (JStr p)
    /\ (4 <= strength (validatePasswordStrength p))%nat
    /\ (errors (validatePasswordStrength p) = []
        \/ errors (validatePasswordStrength p) = [msg_special])
    /\ (isValid (validatePasswordStrength p) = true <-> rule_special p).
Proof.
  intros H.
  destruct (validate_next is_email _ _ _ H) as [schema [Hs [Herr ->]]].
  cbn in Hs. injection Hs as <-.
  unfold schema_validate, userRegister in Herr. cbn [fst snd flat_map] in Herr.
  apply app_eq_nil in Herr as [_ Herr]. apply app_eq_nil in Herr as [_ Herr].
  rewrite app_nil_r in Herr.
  destruct (assoc "password" obj) as [[| | |p| |]|] eqn:Hpw; try discriminate Herr.
  exists p. split; [rewrite assoc_strip_unknown by reflexivity; exact Hpw|].
  unfold check_string in Herr.
  destruct (String.eqb p "") eqn:Hempty; [discriminate Herr|].
  cbn [s_rules flat_map check_rule] in Herr.
  destruct (Z.ltb_spec (Z.of_nat (String.length p)) 6); [discriminate Herr|].
  destruct (Z.ltb_spec 128 (Z.of_nat (String.length p))); [discriminate Herr|].
  cbn [app] in Herr.
  destruct (ahead lower p && ahead upper p && ahead digit p) eqn:Hpat;
    [|discriminate Herr].
  apply andb_true_iff in Hpat as [Hpat Hd]. apply andb_true_iff in Hpat as [Hl Hu].
  apply test_first_line in Hl, Hu, Hd.
  pose proof (test_one_of special_chars p) as Hsp. fold (rule_special p) in Hsp.
  unfold validatePasswordStrength, lower_re, upper_re, digit_re, special_re.
  cbn [isValid strength errors values length_ok lowercase uppercase number special forallb].
  rewrite Hl, Hu, Hd.
  replace ((6 <=? String.length p)%nat && (String.length p <=? 128)%nat) with true
    by (symmetry; apply andb_true_iff; split; apply Nat.leb_le; lia).
  rewrite <- Hsp.
  destruct (test (OneOf special_chars) p); cbn; (split; [lia|]); split; auto;
    split; congruence.
Qed.

(** X5. The three fields [validatePasswordStrength] returns agree: the
    password is valid exactly when no error is listed and exactly when its
    strength is 5, and the number of errors and the strength add up to 5. *)
Theorem password_fields_agree (p : string) :
  (isValid (validatePasswordStrength p) = true <-> errors (validatePasswordStrength p) = [])
  /\ (isValid (validatePasswordStrength p) = true <-> strength (validatePasswordStrength p) = 5%nat)
  /\ (List.length (errors (validatePasswordStrength p))
      + strength (validatePasswordStrength p) = 5)%nat.
Proof.
  unfold validatePasswordStrength.
  cbn [isValid strength errors values length_ok lowercase uppercase number special forallb].
  destruct ((6 <=? String.length p)%nat && (String.length p <=? 128)%nat),
    (test lower_re p), (test upper_re p), (test digit_re p), (test special_re p);
    cbn [push_unless app List.filter List.length andb];
    (split; [split; (reflexivity || discriminate)|]);
    (split; [split; (reflexivity || discriminate)|]); reflexivity.
Qed.

End MoreValidationFacts.

(** ** Limiters by environment *)

Section MoreLimiterFacts.
Import RateLimit.

(** X6. [getRateLimiters] hands out the development limiter exactly when
    [NODE_ENV] is the string development; for every other value, and when
    the variable is unset, the general, ai and chain routes get their own
    limiters with the maxima 100, 30 and 10. *)
Theorem limiters_by_environment (NODE_ENV : option string) :
  (NODE_ENV = Some "development" <->
     getRateLimiters NODE_ENV
       = {| general := devLimiter; ai := devLimiter; chain := devLimiter |})
  /\ (NODE_ENV <> Some "development" <->
        getRateLimiters NODE_ENV
          = {| general := generalLimiter; ai := aiLimiter; chain := chainLimiter |})
  /\ (NODE_ENV <> Some "development" ->
        max (general (getRateLimiters NODE_ENV)) = 100%Z
        /\ max (ai (getRateLimiters NODE_ENV)) = 30%Z
        /\ max (chain (getRateLimiters NODE_ENV)) = 10%Z).
Proof.
  assert (Hdev : is_development NODE_ENV = true <-> NODE_ENV = Some "development").
  { unfold is_development. destruct NODE_ENV as [mode|].
    - rewrite String.eqb_eq. split; congruence.
    - split; discriminate. }
  unfold getRateLimiters. destruct (is_development NODE_ENV) eqn:E.
  - assert (Heq : NODE_ENV = Some "development") by (apply Hdev; reflexivity).
    split; [tauto|]. split; [|tauto].
    split; [tauto|]. intros H. discriminate H.
  - assert (Hne : NODE_ENV <> Some "development").
    { intros H. apply Hdev in H. discriminate H. }
    split; [split; [tauto | intros H; discriminate H]|].
    split; [tauto|]. intros _. repeat split.
Qed.

End MoreLimiterFacts.

(** ** Handlers *)

Section MoreRouteFacts.
Import Routes.
Local Open Scope Z_scope.

Variable toISOString : Z -> string.
Variable net : Network.
Variable is_email : string -> bool.

Lemma try_catch_replies {A} (body : M A) (handler : Error -> M A) w :
  (forall e w1, exists a, handler e w1 = (Ok a, w1)) ->
  exists a w', try_catch body handler w = (Ok a, w').
Proof.
  intros Hh. unfold try_catch. destruct (body w) as [[a|e] w1].
  - eauto.
  - destruct (Hh e w1) as [a Ha]. eauto.
Qed.

Lemma try_catch_world {A} (body : M A) (handler : Error -> M A) w :
  (forall e w1, snd (handler e w1) = w1) ->
  snd (try_catch body handler w) = snd (body w).
Proof.
  intros Hh. unfold try_catch. destruct (body w) as [[a|e] w1]; [reflexivity|].
  cbn [snd]. apply Hh.
Qed.

Lemma stage_fails_or_yields (outcome : result json) :
  stage_fails outcome \/ exists v, stage_yields outcome v.
Proof.
  destruct outcome as [d|e]; [|left; exact I].
  cbn [stage_fails]. destruct (output_or_result d) as [[v|]|e] eqn:Ho.
  - destruct v; try (right; eexists; eexists; repeat split; [eassumption | discriminate]).
    left. reflexivity.
  - left. reflexivity.
  - left. exact I.
Qed.

(** X7. Given an [input] that is not [undefined] or [null], the handlers of
    /chain, /scira and /deepseek always send a reply, whatever the vendors
    do: no error escapes their [try]/[catch]. The /deepseek handler that runs
    without middleware does so for every [input]. *)
Theorem handlers_always_reply (input : value) (w : World) :
  (nullish input = false ->
     (exists reply w', chain_handler toISOString net input w = (Ok reply, w'))
     /\ (exists reply w', scira_handler toISOString net input w = (Ok reply, w'))
     /\ (exists reply w', deepseek_http_handler toISOString net input w = (Ok reply, w'))
     /\ (exists reply w', deepseek_handler toISOString net input w = (Ok reply, w')))
  /\ (exists reply w', deepseek_handler_open toISOString net input w = (Ok reply, w')).
Proof.
  split.
  - intros Hin. repeat split.
    + unfold chain_handler, bind, lift, date_now.
      rewrite (read_length_defined input Hin).
      apply try_catch_replies. intros e w1. apply chain_catch_replies.
    + unfold scira_handler, single_handler, bind, lift, date_now.
      rewrite (read_length_defined input Hin).
      apply try_catch_replies. intros e w1. eexists. reflexivity.
    + unfold deepseek_http_handler, single_handler, bind, lift, date_now.
      rewrite (read_length_defined input Hin).
      apply try_catch_replies. intros e w1. eexists. reflexivity.
    + unfold deepseek_handler, bind, lift, date_now.
      rewrite (read_length_defined input Hin).
      apply try_catch_replies. intros e w1. eexists. reflexivity.
  - unfold deepseek_handler_open, bind, date_now.
    apply try_catch_replies. intros e w1. eexists. reflexivity.
Qed.

(** X8. With [input] [undefined] or [null], the handlers of /chain, /scira
    and /deepseek throw a [TypeError] on [input.length] before their [try]:
    no reply is sent and no vendor is called. The /deepseek handler that runs
    without middleware reads [input?.length] and calls the vendor with that
    input all the same. *)
Theorem missing_input_escapes (input : value) (w : World) :
  nullish input = true ->
  chain_handler toISOString net input w = (Throw (type_error (describe input) "length"), w)
  /\ scira_handler toISOString net input w = (Throw (type_error (describe input) "length"), w)
  /\ deepseek_http_handler toISOString net input w
     = (Throw (type_error (describe input) "length"), w)
  /\ deepseek_handler toISOString net input w
     = (Throw (type_error (describe input) "length"), w)
  /\ calls (snd (deepseek_handler_open toISOString net input w))
     = (calls w ++ [{| url := openrouter_url; prompt := input |}])%list.
Proof.
  intros Hin.
  assert (Hlen : read_length input = Throw (type_error (describe input) "length")).
  { destruct input as [[]|]; try discriminate Hin; reflexivity. }
  repeat split;
    try (unfold chain_handler, scira_handler, deepseek_http_handler, single_handler,
           deepseek_handler, bind, lift, date_now; rewrite Hlen; reflexivity).
  clear Hlen. unfold deepseek_handler_open, bind, date_now. cbv beta iota.
  unfold openrouter_handler. rewrite try_catch_world by reflexivity.
  unfold bind. rewrite call_unfold.
  destruct (snd (net openrouter_url input (now w))) as [completion|e]; [|reflexivity].
  cbn [now calls]. unfold ret, lift.
  destruct (read_length _); [|reflexivity].
  unfold metadata, bind, date_now, ret. reflexivity.
Qed.

Lemma chain_catch_world startTime e w1 :
  snd (chain_catch toISOString startTime e w1) = w1.
Proof.
  destruct (chain_catch_replies toISOString startTime e w1) as [r Hr].
  rewrite Hr. reflexivity.
Qed.

(** The chain once its first stage has yielded [v1]: the rest of the [try]
    block, from the second call on. *)
Lemma chain_after_first (input : value) (w : World) (v1 : json) :
  nullish input = false ->
  stage_yields (snd (net scira_url input (now w))) v1 ->
  chain_handler toISOString net input w =
    try_catch
      (bind (call net deepseek_url (Some v1)) (fun deepSeekRes =>
       bind (lift (output_or_result deepSeekRes)) (fun deepSeekOutput =>
       bind (lift (read_length (Some v1))) (fun _ =>
       bind (lift (read_length deepSeekOutput)) (fun _ =>
       bind (metadata toISOString (now w)) (fun meta =>
       ret {| code := 200;
              body := JObj (object
                [("output", deepSeekOutput);
                 ("chain", Some (JObj (object [("scira", Some v1);
                                               ("deepseek", deepSeekOutput)])));
                 ("metadata", Some meta)]) |}))))))
      (chain_catch toISOString (now w))
      {| now := now w + fst (net scira_url input (now w));
         calls := calls w ++ [{| url := scira_url; prompt := input |}] |}.
Proof.
  intros Hin [d1 [Hs1 [Ho1 Hv1]]].
  unfold chain_handler, bind, try_catch, lift, date_now.
  rewrite (read_length_defined input Hin), call_unfold, Hs1. cbn [now calls].
  rewrite Ho1, (read_length_defined (Some v1) (nullish_some v1 Hv1)).
  reflexivity.
Qed.

(** X9. The chain calls the vendors in a fixed order and at most once
    each: Scira with the input, and then, only if Scira's answer yielded an
    output, DeepSeek with exactly that output as its prompt. Nothing else is
    called, whatever either vendor answers. *)
Theorem chain_call_discipline (input : value) (w : World) :
  nullish input = false ->
  (stage_fails (snd (net scira_url input (now w)))
   /\ calls (snd (chain_handler toISOString net input w))
      = (calls w ++ [{| url := scira_url; prompt := input |}])%list)
  \/ (exists v1,
        stage_yields (snd (net scira_url input (now w))) v1
        /\ calls (snd (chain_handler toISOString net input w))
           = (calls w ++ [{| url := scira_url; prompt := input |};
                          {| url := deepseek_url; prompt := Some v1 |}])%list).
Proof.
  intros Hin.
  destruct (stage_fails_or_yields (snd (net scira_url input (now w)))) as [Hfail|[v1 Hy]].
  - left. split; [exact Hfail|].
    destruct (chain_first_stage_fails toISOString net input w Hin Hfail) as [e [_ Hrun]].
    rewrite Hrun, chain_catch_world. reflexivity.
  - right. exists v1. split; [exact Hy|].
    rewrite (chain_after_first input w v1 Hin Hy).
    rewrite try_catch_world by (intros; apply chain_catch_world).
    unfold bind. rewrite call_unfold. cbn [now calls].
    rewrite <- app_assoc. cbn [app].
    destruct (snd (net deepseek_url _ _)) as [d2|e]; [|reflexivity].
    unfold lift. destruct (output_or_result d2) as [o2|e]; [|reflexivity].
    destruct (read_length (Some v1)); [|reflexivity].
    destruct (read_length o2); [|reflexivity].
    reflexivity.
Qed.

(** X10. When Scira's answer yields an output but the second stage fails -
    the DeepSeek call throws, or the output of its answer cannot be read -
    the chain answers with its [catch] block's reply after exactly the two
    calls; that reply has no [output] and no [chain] field, so the first
    stage's output is not returned on its own. *)
Theorem chain_second_stage_fails (input : value) (w : World) (v1 : json) :
  nullish input = false ->
  stage_yields (snd (net scira_url input (now w))) v1 ->
  stage_fails (snd (net deepseek_url (Some v1) (now w + fst (net scira_url input (now w))))) ->
  exists error reply after,
    chain_handler toISOString net input w = (Ok reply, after)
    /\ calls after = (calls w ++ [{| url := scira_url; prompt := input |};
                                  {| url := deepseek_url; prompt := Some v1 |}])%list
    /\ chain_catch toISOString (now w) error after = (Ok reply, after)
    /\ field (body reply) "output" = None
    /\ field (body reply) "chain" = None
    /\ field (body reply) "error" <> None.
Proof.
  intros Hin Hy Hfail.
  rewrite (chain_after_first input w v1 Hin Hy).
  set (w1 := {| now := now w + fst (net scira_url input (now w));
                calls := calls w ++ [{| url := scira_url; prompt := input |}] |}).
  set (after := {| now := now w1 + fst (net deepseek_url (Some v1) (now w1));
                   calls := calls w1 ++ [{| url := deepseek_url; prompt := Some v1 |}] |}).
  assert (Hcatch : exists error,
            try_catch
              (bind (call net deepseek_url (Some v1)) (fun deepSeekRes =>
               bind (lift (output_or_result deepSeekRes)) (fun deepSeekOutput =>
               bind (lift (read_length (Some v1))) (fun _ =>
               bind (lift (read_length deepSeekOutput)) (fun _ =>
               bind (metadata toISOString (now w)) (fun meta =>
               ret {| code := 200;
                      body := JObj (object
                        [("output", deepSeekOutput);
                         ("chain", Some (JObj (object [("scira", Some v1);
                                                       ("deepseek", deepSeekOutput)])));
                         ("metadata", Some meta)]) |}))))))
              (chain_catch toISOString (now w)) w1
            = chain_catch toISOString (now w) error after).
  { unfold try_catch, bind. rewrite call_unfold. fold after.
    change (now w1) with (now w + fst (net scira_url input (now w))) in *.
    destruct (snd (net deepseek_url (Some v1) _)) as [d2|e]; [|eexists; reflexivity].
    cbn [stage_fails] in Hfail. unfold lift.
    destruct (output_or_result d2) as [o2|e]; [|eexists; reflexivity].
    destruct (read_length (Some v1)); [|eexists; reflexivity].
    destruct (read_length_nullish o2 Hfail) as [e He]. rewrite He.
    eexists; reflexivity. }
  destruct Hcatch as [error Hrun]. rewrite Hrun.
  exists error.
  destruct (response error) as [vendor|] eqn:Hresp.
  - rewrite (chain_catch_vendor toISOString _ _ _ _ Hresp).
    eexists _, after. split; [reflexivity|].
    split; [subst after w1; cbn [calls]; rewrite <- app_assoc; reflexivity|].
    split; [apply chain_catch_vendor; exact Hresp|].
    cbn. repeat split; discriminate.
  - rewrite (chain_catch_other toISOString _ _ _ Hresp).
    eexists _, after. split; [reflexivity|].
    split; [subst after w1; cbn [calls]; rewrite <- app_assoc; reflexivity|].
    split; [apply chain_catch_other; exact Hresp|].
    cbn. repeat split; discriminate.
Qed.

(** X11. A vendor answer without a usable output is a chain failure of the
    generic kind: when the Scira call returns (2xx) but neither [output] nor
    [result] of its data can be used, the reply is 500 with the text
    Chaining failed. Please check logs. - the same as for a vendor that
    cannot be reached - and DeepSeek is not called. *)
Theorem chain_unusable_output (input : value) (w : World) (data : json) :
  nullish input = false ->
  snd (net scira_url input (now w)) = Ok data ->
  stage_fails (Ok data) ->
  chain_handler toISOString net input w =
    (Ok {| code := 500;
           body := JObj [("error", JStr "Chaining failed. Please check logs.");
                         ("metadata",
                          JObj [("processingTime", JNum (fst (net scira_url input (now w))));
                                ("timestamp",
                                 JStr (toISOString
                                         (now w + fst (net scira_url input (now w)))))])] |},
     {| now := now w + fst (net scira_url input (now w));
        calls := calls w ++ [{| url := scira_url; prompt := input |}] |}).
Proof.
  intros Hin Hs1 Hfail.
  assert (Hfail' : stage_fails (snd (net scira_url input (now w)))) by (rewrite Hs1; exact Hfail).
  destruct (chain_first_stage_fails toISOString net input w Hin Hfail') as [e [Hwhy Hrun]].
  destruct Hwhy as [Hthrown|Hnone]; [rewrite Hs1 in Hthrown; discriminate Hthrown|].
  rewrite Hrun, (chain_catch_other toISOString _ _ _ Hnone). cbn [now].
  replace (now w + fst (net scira_url input (now w)) - now w)
    with (fst (net scira_url input (now w))) by lia.
  reflexivity.
Qed.

(** X12. The single-provider handlers of /scira and /deepseek answer 200
    with the vendor's output when the call yields one, and otherwise always
    500 with their own fixed text: unlike the chain, they forward neither
    the vendor's status code nor its response data. *)
Theorem single_handler_replies (target failure : string) (input : value) (w : World) :
  nullish input = false ->
  (forall v, stage_yields (snd (net target input (now w))) v ->
     fst (single_handler toISOString net target failure input w) =
       Ok {| code := 200;
             body := JObj [("output", v);
                           ("metadata",
                            JObj [("processingTime", JNum (fst (net target input (now w))));
                                  ("timestamp",
                                   JStr (toISOString
                                           (now w + fst (net target input (now w)))))])] |})
  /\ (stage_fails (snd (net target input (now w))) ->
      fst (single_handler toISOString net target failure input w) =
        Ok {| code := 500;
              body := JObj [("error", JStr failure);
                            ("metadata",
                             JObj [("processingTime", JNum (fst (net target input (now w))));
                                   ("timestamp",
                                    JStr (toISOString
                                            (now w + fst (net target input (now w)))))])] |})
  /\ calls (snd (single_handler toISOString net target failure input w))
     = (calls w ++ [{| url := target; prompt := input |}])%list.
Proof.
  intros Hin.
  unfold single_handler, metadata, bind, try_catch, lift, date_now, ret.
  rewrite (read_length_defined input Hin), call_unfold. cbn [now calls].
  split; [|split].
  - intros v [d [Hs [Ho Hv]]]. rewrite Hs, Ho.
    rewrite (read_length_defined (Some v) (nullish_some v Hv)).
    cbn [fst now object]. rewrite Z.add_simpl_l. reflexivity.
  - intros Hfail.
    destruct (snd (net target input (now w))) as [d|e];
      [|cbn [fst now]; rewrite Z.add_simpl_l; reflexivity].
    cbn [stage_fails] in Hfail.
    destruct (output_or_result d) as [o|e];
      [|cbn [fst now]; rewrite Z.add_simpl_l; reflexivity].
    destruct (read_length_nullish o Hfail) as [e He]. rewrite He.
    cbn [fst now]. rewrite Z.add_simpl_l. reflexivity.
  - destruct (snd (net target input (now w))) as [d|e]; [|reflexivity].
    destruct (output_or_result d) as [o|e]; [|reflexivity].
    destruct (read_length o); reflexivity.
Qed.

Lemma placeholder_truthy (content : value) :
  exists v, or_else content (Some (JStr "No response")) = Some v
            /\ truthy (Some v) = true.
Proof.
  unfold or_else. destruct (truthy content) eqn:Ht.
  - destruct content as [v|]; [|discriminate Ht]. exists v. split; [reflexivity | exact Ht].
  - eexists. split; reflexivity.
Qed.

(** What a reply of the OpenRouter handlers looks like. *)
Lemma openrouter_handler_shape failure read input startTime :
  ensures (openrouter_handler toISOString net failure read input startTime)
    (fun r =>
       (code r = 200
        /\ exists v, field (body r) "output" = Some v /\ truthy (Some v) = true)
       \/ (code r = 500
           /\ field (body r) "output" = None
           /\ field (body r) "error" = Some (JStr failure))).
Proof.
  unfold openrouter_handler. apply ensures_try.
  - eapply ensures_bind; [apply ensures_any|]. intros completion _.
    eapply ensures_bind; [apply ensures_any|]. intros content _.
    eapply ensures_bind; [apply ensures_any|]. intros _ _.
    eapply ensures_bind; [apply ensures_any|]. intros meta _.
    apply ensures_ret. left. split; [reflexivity|].
    destruct (placeholder_truthy content) as [v [Hv Ht]].
    exists v. rewrite Hv. split; [reflexivity | exact Ht].
  - intros e.
    eapply ensures_bind; [apply ensures_any|]. intros meta _.
    apply ensures_ret. right. repeat split.
Qed.

(** X13. A success reply of the OpenRouter /deepseek handlers never has an
    empty output: whenever they answer 200, [output] is present and truthy
    (the completion's text or the placeholder); their only other reply is
    500 with their fixed error text and no [output]. *)
Theorem openrouter_output_never_empty (input : value) (w : World) (reply : Reply) :
  fst (deepseek_handler toISOString net input w) = Ok reply
  \/ fst (deepseek_handler_open toISOString net input w) = Ok reply ->
  (code reply = 200
   /\ exists v, field (body reply) "output" = Some v /\ truthy (Some v) = true)
  \/ (code reply = 500
      /\ field (body reply) "output" = None
      /\ exists text, field (body reply) "error" = Some (JStr text)).
Proof.
  assert (Hrun : forall failure (m : M Reply),
             ensures m (fun r =>
               (code r = 200
                /\ exists v, field (body r) "output" = Some v /\ truthy (Some v) = true)
               \/ (code r = 500
                   /\ field (body r) "output" = None
                   /\ field (body r) "error" = Some (JStr failure))) ->
             fst (m w) = Ok reply ->
             (code reply = 200
              /\ exists v, field (body reply) "output" = Some v /\ truthy (Some v) = true)
             \/ (code reply = 500
                 /\ field (body reply) "output" = None
                 /\ exists text, field (body reply) "error" = Some (JStr text))).
  { intros failure m Hm H. destruct (m w) as [r w'] eqn:Hmw. cbn [fst] in H. subst r.
    destruct (Hm _ _ _ Hmw) as [Hok | [Hc [Ho He]]]; [left; exact Hok|].
    right. eauto. }
  intros [H|H]; revert H; eapply Hrun.
  - unfold deepseek_handler.
    eapply ensures_bind; [apply ensures_any|]. intros startTime _.
    eapply ensures_bind; [apply ensures_any|]. intros _ _.
    apply openrouter_handler_shape.
  - unfold deepseek_handler_open.
    eapply ensures_bind; [apply ensures_any|]. intros startTime _.
    apply openrouter_handler_shape.
Qed.

Lemma deepseek_accepts_string (obj obj' : list (string * json)) :
  Validation.validate is_email "deepseek" obj = Validation.Next obj' ->
  exists s, assoc "input" obj' = Some (JStr s).
Proof.
  intros H.
  destruct (validate_next is_email _ _ _ H) as [schema [Hs [Herr ->]]].
  cbn in Hs. injection Hs as <-.
  rewrite assoc_strip_unknown by reflexivity.
  unfold Validation.schema_validate, Validation.deepseek in Herr.
  cbn [fst snd flat_map] in Herr. rewrite app_nil_r in Herr.
  destruct (assoc "input" obj) as [[| | |s| |]|]; try discriminate Herr.
  exists s. reflexivity.
Qed.

Lemma deepseek_handler_answers (s : string) (w : World) :
  exists reply w',
    deepseek_handler toISOString net (Some (JStr s)) w = (Ok reply, w')
    /\ (code reply = 200 \/ code reply = 500).
Proof.
  assert (Hrun : exists reply w',
            deepseek_handler toISOString net (Some (JStr s)) w = (Ok reply, w')).
  { unfold deepseek_handler, bind, lift, date_now. cbn [read_length].
    apply try_catch_replies. intros e w1. eexists. reflexivity. }
  destruct Hrun as [reply [w' Hrun]]. exists reply, w'. split; [exact Hrun|].
  assert (Hshape : ensures (deepseek_handler toISOString net (Some (JStr s)))
                     (fun r => code r = 200 \/ code r = 500)).
  { unfold deepseek_handler.
    eapply ensures_bind; [apply ensures_any|]. intros startTime _.
    eapply ensures_bind; [apply ensures_any|]. intros _ _.
    intros w0 r w1 H0.
    destruct (openrouter_handler_shape _ _ _ _ _ _ _ H0) as [[Hc _]|[Hc _]]; tauto. }
  exact (Hshape _ _ _ Hrun).
Qed.

Lemma limiter_rejects_with_429 (NODE_ENV : option string) :
  code (RateLimit.rejection (RateLimit.ai (RateLimit.getRateLimiters NODE_ENV))) = 429.
Proof.
  unfold RateLimit.getRateLimiters. destruct (RateLimit.is_development NODE_ENV); reflexivity.
Qed.

(** X14. The route [POST /deepseek] answers every request, with 429, 400,
    200 or 500. The limiter runs first: a request it rejects gets its 429
    whatever the body and causes no vendor call; and the limiter's store
    moves for every request, so a request that validation then rejects with
    400 has still been counted. *)
Theorem post_deepseek_answers (NODE_ENV : option string) (req : Request)
    (store : gmap string RateLimit.Window) (w : World) :
  let limiter := RateLimit.ai (RateLimit.getRateLimiters NODE_ENV) in
  exists reply,
    fst (fst (post_deepseek toISOString is_email net NODE_ENV req store w)) = Ok reply
    /\ (code reply = 429 \/ code reply = 400 \/ code reply = 200 \/ code reply = 500)
    /\ snd (fst (post_deepseek toISOString is_email net NODE_ENV req store w))
       = snd (RateLimit.admission limiter (ip req) (now w) store)
    /\ (fst (RateLimit.admission limiter (ip req) (now w) store) = false ->
        reply = RateLimit.rejection limiter
        /\ snd (post_deepseek toISOString is_email net NODE_ENV req store w) = w)
    /\ (code reply = 400 ->
        snd (post_deepseek toISOString is_email net NODE_ENV req store w) = w).
Proof.
  intros limiter. unfold post_deepseek. fold limiter.
  destruct (RateLimit.admission limiter (ip req) (now w) store) as [[|] store'].
  - unfold Validation.validateDeepSeek.
    destruct (Validation.validate is_email "deepseek" (req_body req)) as [r|body'] eqn:Hv.
    + exists r. cbn [fst snd]. split; [reflexivity|].
      assert (Hcode : code r = 400).
      { unfold Validation.validate in Hv. cbn [Validation.find_schema Validation.schemas
          String.eqb Ascii.eqb Bool.eqb] in Hv.
        destruct (Validation.schema_validate is_email Validation.deepseek (req_body req))
          as [[|d ds] value]; [discriminate Hv|]. injection Hv as <-. reflexivity. }
      split; [tauto|]. split; [reflexivity|]. split; [discriminate|]. reflexivity.
    + destruct (deepseek_accepts_string _ _ Hv) as [s Hin]. rewrite Hin.
      destruct (deepseek_handler_answers s w) as [reply [w' [Hrun Hcode]]].
      rewrite Hrun. cbn [fst snd].
      exists reply. split; [reflexivity|].
      split; [tauto|]. split; [reflexivity|]. split; [discriminate|].
      intros H4. rewrite H4 in Hcode. destruct Hcode; discriminate.
  - exists (RateLimit.rejection limiter). cbn [fst snd].
    split; [reflexivity|]. split; [left; apply limiter_rejects_with_429|].
    split; [reflexivity|]. split; [intros _; split; reflexivity|]. reflexivity.
Qed.

End MoreRouteFacts.

(** ** The Gemini service and its route *)

Section GeminiFacts.
Import Routes Gemini.
Local Open Scope Z_scope.

Variable toISOString : Z -> string.
Variable sdk : Sdk.

Lemma generateContent_unfold service p w :
  generateContent sdk service p w =
    (snd (sdk p (now w)),
     {| now := now w + fst (sdk p (now w));
        calls := calls w ++ [{| url := modelName service; prompt := p |}] |}).
Proof. unfold generateContent. destruct (sdk p (now w)); reflexivity. Qed.

Lemma string_length_append (a b : string) :
  String.length (a ++ b) = (String.length a + String.length b)%nat.
Proof.
  induction a as [|c a IH]; [reflexivity|].
  change (String.length (String c a ++ b)) with (S (String.length (a ++ b))).
  rewrite IH. reflexivity.
Qed.

Lemma substring_length_le (n : nat) (s : string) :
  (String.length (String.substring 0 n s) <= n)%nat.
Proof.
  revert s. induction n as [|n IH]; intros s.
  - destruct s; cbn; lia.
  - destruct s as [|c s]; cbn; [lia|]. specialize (IH s). lia.
Qed.

(** The service call when the vendor fails: one call, then the error with
    its message prefixed. *)
Lemma generateResponse_fails service (input : value) w (e : Error) :
  nullish input = false ->
  (snd (sdk input (now w)) = Throw e
   \/ exists g, snd (sdk input (now w)) = Ok g /\ text g = Throw e) ->
  generateResponse toISOString sdk service input w =
    (Throw (wrapped "Gemini API error: " e),
     {| now := now w + fst (sdk input (now w));
        calls := calls w ++ [{| url := modelName service; prompt := input |}] |}).
Proof.
  intros Hin Hwhy.
  unfold generateResponse, bind, try_catch, lift, date_now, throw.
  rewrite (read_length_defined input Hin), generateContent_unfold.
  destruct Hwhy as [Hs | [g [Hs Ht]]]; rewrite Hs; [reflexivity|].
  cbn [now calls]. rewrite Ht. reflexivity.
Qed.

Lemma generateResponse_succeeds service (input : value) w g answer :
  nullish input = false ->
  snd (sdk input (now w)) = Ok g -> text g = Ok answer ->
  generateResponse toISOString sdk service input w =
    (Ok {| output := answer;
           metadata :=
             [("model", JStr (modelName service));
              ("processingTime", JNum (fst (sdk input (now w))));
              ("timestamp", JStr (toISOString (now w + fst (sdk input (now w)))));
              ("usage",
               JObj (object
                 [("promptTokens", count (usageMetadata g) "promptTokenCount");
                  ("responseTokens", count (usageMetadata g) "candidatesTokenCount");
                  ("totalTokens", count (usageMetadata g) "totalTokenCount")]))] |},
     {| now := now w + fst (sdk input (now w));
        calls := calls w ++ [{| url := modelName service; prompt := input |}] |}).
Proof.
  intros Hin Hs Ht.
  unfold generateResponse, bind, try_catch, lift, date_now, ret.
  rewrite (read_length_defined input Hin), generateContent_unfold, Hs.
  cbn [now calls]. rewrite Ht. cbn [now]. rewrite Z.add_simpl_l. reflexivity.
Qed.

(** X15. The service can be built exactly when GOOGLE_GEMINI_API_KEY is set
    to a non-empty string. When it cannot, the router keeps running with no
    service, and its /gemini handler answers every request - whatever the
    input - with 503 and without any vendor call. *)
Theorem gemini_without_key (GOOGLE_GEMINI_API_KEY : option string)
    (input : value) (w : World) :
  (init GOOGLE_GEMINI_API_KEY = None <->
     GOOGLE_GEMINI_API_KEY = None \/ GOOGLE_GEMINI_API_KEY = Some "")
  /\ (forall key, GOOGLE_GEMINI_API_KEY = Some key -> key <> "" ->
        init GOOGLE_GEMINI_API_KEY
          = Some {| apiKey := key; modelName := "gemini-2.0-flash-exp" |})
  /\ gemini_handler toISOString sdk None input w =
       (Ok {| code := 503;
              body := JObj [("error",
                             JStr "Gemini service is not available. Please check API key configuration.");
                            ("metadata",
                             JObj [("processingTime", JNum 0);
                                   ("timestamp", JStr (toISOString (now w)))])] |}, w).
Proof.
  split; [|split].
  - unfold init, create. destruct GOOGLE_GEMINI_API_KEY as [key|].
    + cbn [truthy]. destruct (String.eqb_spec key "") as [->|Hne]; cbn [negb].
      * split; [right; reflexivity | reflexivity].
      * split; [discriminate | intros [H|H]; [discriminate H | congruence]].
    + split; [left; reflexivity | reflexivity].
  - intros key -> Hne. unfold init, create. cbn [truthy].
    destruct (String.eqb_spec key ""); [contradiction | reflexivity].
  - unfold gemini_handler, Routes.metadata, bind, date_now, ret.
    rewrite Z.sub_diag. reflexivity.
Qed.

(** X16. Whenever the vendor call of the service throws, or the text of its
    result cannot be read, [generateResponse] throws an error whose message
    is the original message behind the prefix Gemini API error: , and the
    /gemini handler answers 500 with that message as [details], after the
    one vendor call. *)
Theorem gemini_failure_is_wrapped (service : Service) (input : value) (w : World)
    (e : Error) :
  nullish input = false ->
  (snd (sdk input (now w)) = Throw e
   \/ exists g, snd (sdk input (now w)) = Ok g /\ text g = Throw e) ->
  fst (generateResponse toISOString sdk service input w)
    = Throw {| message := "Gemini API error: " ++ message e; response := None |}
  /\ gemini_handler toISOString sdk (Some service) input w =
       (Ok {| code := 500;
              body := JObj [("error", JStr "Gemini API call failed");
                            ("details", JStr ("Gemini API error: " ++ message e));
                            ("metadata",
                             JObj [("processingTime", JNum (fst (sdk input (now w))));
                                   ("timestamp",
                                    JStr (toISOString (now w + fst (sdk input (now w)))))])] |},
        {| now := now w + fst (sdk input (now w));
           calls := calls w ++ [{| url := modelName service; prompt := input |}] |}).
Proof.
  intros Hin Hwhy.
  pose proof (generateResponse_fails service input w e Hin Hwhy) as Hrun.
  split; [rewrite Hrun; reflexivity|].
  unfold gemini_handler. unfold bind at 1. unfold date_now at 1. cbv beta iota.
  unfold bind at 1. unfold lift at 1. rewrite (read_length_defined input Hin).
  unfold try_catch, bind at 1. rewrite Hrun.
  unfold Routes.metadata, bind, date_now, ret. cbn [now message wrapped].
  rewrite Z.add_simpl_l. reflexivity.
Qed.

(** X17. When the vendor call succeeds, the /gemini handler answers 200
    with the text as [output] and the service's metadata - model,
    processingTime, timestamp, usage, in that order - with [processingTime]
    replaced in place by the handler's own total; each token count of
    [usage] is the vendor's count when it gives a non-zero one and 0
    otherwise, so all three are 0 when the result has no [usageMetadata]. *)
Theorem gemini_success (service : Service) (input : value) (w : World)
    (g : Generated) (answer : string) :
  nullish input = false ->
  snd (sdk input (now w)) = Ok g -> text g = Ok answer ->
  gemini_handler toISOString sdk (Some service) input w =
    (Ok {| code := 200;
           body := JObj [("output", JStr answer);
                         ("metadata",
                          JObj [("model", JStr (modelName service));
                                ("processingTime", JNum (fst (sdk input (now w))));
                                ("timestamp",
                                 JStr (toISOString (now w + fst (sdk input (now w)))));
                                ("usage",
                                 JObj (object
                                   [("promptTokens",
                                     count (usageMetadata g) "promptTokenCount");
                                    ("responseTokens",
                                     count (usageMetadata g) "candidatesTokenCount");
                                    ("totalTokens",
                                     count (usageMetadata g) "totalTokenCount")]))])] |},
     {| now := now w + fst (sdk input (now w));
        calls := calls w ++ [{| url := modelName service; prompt := input |}] |})
  /\ (forall k, (count (usageMetadata g) k = get_opt (usageMetadata g) k
                 /\ truthy (get_opt (usageMetadata g) k) = true)
                \/ (count (usageMetadata g) k = Some (JNum 0)
                    /\ truthy (get_opt (usageMetadata g) k) = false))
  /\ (usageMetadata g = None ->
      object [("promptTokens", count (usageMetadata g) "promptTokenCount");
              ("responseTokens", count (usageMetadata g) "candidatesTokenCount");
              ("totalTokens", count (usageMetadata g) "totalTokenCount")]
      = [("promptTokens", JNum 0); ("responseTokens", JNum 0); ("totalTokens", JNum 0)]).
Proof.
  intros Hin Hs Ht.
  pose proof (generateResponse_succeeds service input w g answer Hin Hs Ht) as Hrun.
  split; [|split].
  - unfold gemini_handler. unfold bind at 1. unfold date_now at 1. cbv beta iota.
    unfold bind at 1. unfold lift at 1. rewrite (read_length_defined input Hin).
    unfold try_catch, bind at 1. rewrite Hrun.
    unfold bind, date_now, ret. cbn [now output metadata assign String.eqb Ascii.eqb Bool.eqb].
    rewrite Z.add_simpl_l. reflexivity.
  - intros k. unfold count, or_else.
    destruct (truthy (get_opt (usageMetadata g) k)); [left | right]; split; reflexivity.
  - intros ->. reflexivity.
Qed.

(** X18. [healthCheck] never throws. It makes one vendor call with the
    prompt Hello and reports healthy with the first 50 characters of the
    answer followed by three dots - at most 53 characters - or unhealthy
    with the prefixed message of the error. *)
Theorem health_check_reports (service : Service) (w : World) :
  exists report,
    healthCheck toISOString sdk service w =
      (Ok report,
       {| now := now w + fst (sdk (Some (JStr "Hello")) (now w));
          calls := calls w ++ [{| url := modelName service; prompt := Some (JStr "Hello") |}] |})
    /\ ((exists g answer,
           snd (sdk (Some (JStr "Hello")) (now w)) = Ok g /\ text g = Ok answer
           /\ report = JObj [("status", JStr "healthy");
                             ("model", JStr (modelName service));
                             ("response", JStr (String.substring 0 50 answer ++ "..."))]
           /\ (String.length (String.substring 0 50 answer ++ "...") <= 53)%nat)
        \/ (exists e,
              (snd (sdk (Some (JStr "Hello")) (now w)) = Throw e
               \/ exists g, snd (sdk (Some (JStr "Hello")) (now w)) = Ok g /\ text g = Throw e)
              /\ report = JObj [("status", JStr "unhealthy");
                                ("model", JStr (modelName service));
                                ("error", JStr ("Gemini API error: " ++ message e))])).
Proof.
  unfold healthCheck, try_catch. unfold bind at 1.
  destruct (snd (sdk (Some (JStr "Hello")) (now w))) as [g|e] eqn:Hs.
  - destruct (text g) as [answer|e] eqn:Ht.
    + rewrite (generateResponse_succeeds service (Some (JStr "Hello")) w g answer eq_refl Hs Ht).
      eexists. split; [reflexivity|]. left. exists g, answer.
      split; [reflexivity|]. split; [exact Ht|]. split; [reflexivity|].
      rewrite string_length_append.
      pose proof (substring_length_le 50 answer). cbn [String.length]. lia.
    + rewrite (generateResponse_fails service (Some (JStr "Hello")) w e eq_refl
                 (or_intror (ex_intro _ g (conj Hs Ht)))).
      eexists. split; [reflexivity|]. right. exists e. split; [|reflexivity].
      right. exists g. split; [reflexivity | exact Ht].
  - rewrite (generateResponse_fails service (Some (JStr "Hello")) w e eq_refl (or_introl Hs)).
    eexists. split; [reflexivity|]. right. exists e. split; [|reflexivity].
    left. reflexivity.
Qed.

End GeminiFacts.

(** ** Login *)

Section LoginFacts.
Import Users.
Local Open Scope Z_scope.

Variable toISOString : Z -> string.
Variable db : Collaborators.

(** X19. An unknown e-mail address and a wrong password get the same answer
    from the login handler: 401 with the text Invalid email or password and
    nothing else but the timing metadata, and no document is saved. *)
Theorem login_failures_alike (email_in password_in : value) (s : State) :
  (snd (findOne db email_in (clock s)) = Ok None
   \/ exists user,
        snd (findOne db email_in (clock s)) = Ok (Some user)
        /\ snd (compare db password_in (password user)
                  (clock s + fst (findOne db email_in (clock s)))) = Ok false) ->
  exists took,
    login toISOString db email_in password_in s =
      ({| code := 401;
          body := JObj [("error", JStr "Invalid email or password");
                        ("metadata",
                         JObj [("processingTime", JNum took);
                               ("timestamp", JStr (toISOString (clock s + took)))])] |},
       {| clock := clock s + took; saves := saves s |}).
Proof.
  intros Hwhy. unfold login, invalid, stamp.
  destruct (findOne db email_in (clock s)) as [t1 found] eqn:Hf. cbn [fst snd] in Hwhy.
  destruct Hwhy as [-> | [user [-> Hc]]].
  - exists t1. cbn [clock saves]. rewrite Z.add_simpl_l. reflexivity.
  - cbn [clock saves].
    destruct (compare db password_in (password user) (clock s + t1)) as [t2 ok] eqn:Hcmp.
    cbn [snd] in Hc. subst ok. exists (t1 + t2). cbn [clock saves].
    rewrite Z.add_assoc.
    replace (clock s + t1 + t2 - clock s) with (t1 + t2) by lia. reflexivity.
Qed.

(** X20. The login handler answers 200 only after the user was found,
    [bcrypt.compare] answered true and the document was saved with a new
    [lastLogin]; the [user] object of that reply lists id, username, email,
    createdAt and lastLogin and never the stored password. Every other
    reply is 401 or 500 and has no [user] field. *)
Theorem login_success_is_earned (email_in password_in : value) (s : State) :
  let reply := fst (login toISOString db email_in password_in s) in
  let after := snd (login toISOString db email_in password_in s) in
  (code reply = 200 \/ code reply = 401 \/ code reply = 500)
  /\ (code reply = 200 ->
      exists user stamped,
        snd (findOne db email_in (clock s)) = Ok (Some user)
        /\ snd (compare db password_in (password user)
                  (clock s + fst (findOne db email_in (clock s)))) = Ok true
        /\ saves after = (saves s ++ [stamped])%list
        /\ password stamped = password user
        /\ lastLogin stamped <> None
        /\ exists u, field (body reply) "user" = Some (JObj u)
                     /\ assoc "password" u = None
                     /\ assoc "lastLogin" u = lastLogin stamped)
  /\ (code reply <> 200 ->
      field (body reply) "user" = None /\ field (body reply) "error" <> None).
Proof.
  cbv zeta. unfold login.
  destruct (findOne db email_in (clock s)) as [t1 found].
  destruct found as [[user|]|e]; cbn [fst snd clock saves].
  2:{ split; [tauto|]. split; [discriminate|]. intros _. split; [reflexivity | discriminate]. }
  2:{ split; [tauto|]. split; [discriminate|]. intros _. split; [reflexivity | discriminate]. }
  destruct (compare db password_in (password user) (clock s + t1)) as [t2 ok] eqn:Hcmp.
  destruct ok as [[|]|e]; cbn [fst snd clock saves].
  2:{ split; [tauto|]. split; [discriminate|]. intros _. split; [reflexivity | discriminate]. }
  2:{ split; [tauto|]. split; [discriminate|]. intros _. split; [reflexivity | discriminate]. }
  destruct (save db _ (clock s + t1 + t2)) as [t3 saved].
  destruct saved as [[]|e]; cbn [fst snd clock saves].
  2:{ split; [tauto|]. split; [discriminate|]. intros _. split; [reflexivity | discriminate]. }
  split; [tauto|]. split; [|intros H; exfalso; apply H; reflexivity].
  intros _. eexists user, _. split; [reflexivity|].
  split; [rewrite Hcmp; reflexivity|].
  split; [reflexivity|]. split; [reflexivity|]. split; [discriminate|].
  cbn [_id username email createdAt lastLogin body field object assoc String.eqb Ascii.eqb
       Bool.eqb].
  destruct (_id user), (username user), (email user), (createdAt user);
    (eexists; split; [reflexivity|]; split; reflexivity).
Qed.

End LoginFacts.

(** ** Concrete runs of the further properties *)

Section MoreRuns.
Import Routes.
Local Open Scope Z_scope.


(** X2 on two bodies with an empty [input] and different unknown fields. *)
Lemma validate_reads_declared_fields_witness :
  match Validation.validate Validation.has_at_sign "deepseek" [("input", JStr ""); ("debug", JBool true)],
        Validation.validate Validation.has_at_sign "deepseek" [("n", JNum 1); ("input", JStr "")] with
  | Validation.Respond r1, Validation.Respond r2 => r1 = r2
  | Validation.Next kept1, Validation.Next kept2 =>
      (forall k v, In (k, v) kept1 -> Validation.declared Validation.deepseek k = true)
      /\ (forall k v, In (k, v) kept2 -> Validation.declared Validation.deepseek k = true)
  | _, _ => False
  end.
Proof.
  apply (validate_reads_declared_fields Validation.has_at_sign "deepseek" Validation.deepseek
           [("input", JStr ""); ("debug", JBool true)] [("n", JNum 1); ("input", JStr "")]).
  - reflexivity.
  - intros k Hk. unfold Validation.declared in Hk. cbn in Hk.
    destruct (String.eqb k "input") eqn:E; [|discriminate Hk].
    apply String.eqb_eq in E. subst k. reflexivity.
Defined.

(** X3 on an accepted body with an unknown field. *)
Lemma accepted_input_is_bounded_witness :
  exists s,
    assoc "input" [("input", JStr "hello"); ("model", JStr "r1")] = Some (JStr s)
    /\ assoc "input" [("input", JStr "hello")] = Some (JStr s)
    /\ (1 <= Z.of_nat (String.length s) <= 10000)
    /\ forall k v, In (k, v) [("input", JStr "hello")] -> k = "input".
Proof.
  apply (accepted_input_is_bounded Validation.has_at_sign "deepseek"
           [("input", JStr "hello"); ("model", JStr "r1")] [("input", JStr "hello")]).
  - left. reflexivity.
  - reflexivity.
Defined.

(** X4 on a registration whose password lacks a special character. *)
Lemma register_password_strength_gap_witness :
  exists p,
    assoc "password"
      [("username", JStr "alice"); ("email", JStr "alice@example.com");
       ("password", JStr "Abcdef12")] = Some (JStr p)
    /\ (4 <= Password.strength (Password.validatePasswordStrength p))%nat
    /\ (Password.errors (Password.validatePasswordStrength p) = []
        \/ Password.errors (Password.validatePasswordStrength p) = [Password.msg_special])
    /\ (Password.isValid (Password.validatePasswordStrength p) = true
        <-> Password.rule_special p).
Proof.
  apply (register_password_strength_gap Validation.has_at_sign
           [("username", JStr "alice"); ("email", JStr "alice@example.com");
            ("password", JStr "Abcdef12")]).
  reflexivity.
Defined.

(** X7 and X8 on a reachable pair of vendors. *)
Lemma handlers_always_reply_witness :
  exists reply w',
    chain_handler fixed_stamp (stub 40 (answers "X") (answers "Y")) (Some (JStr "hello")) start
    = (Ok reply, w').
Proof.
  destruct (handlers_always_reply fixed_stamp (stub 40 (answers "X") (answers "Y"))
              (Some (JStr "hello")) start) as [Hall _].
  destruct (Hall eq_refl) as [Hchain _]. exact Hchain.
Defined.

Lemma missing_input_escapes_witness :
  chain_handler fixed_stamp first_down None start
    = (Throw (type_error "undefined" "length"), start)
  /\ calls (snd (deepseek_handler_open fixed_stamp silent None start))
     = [{| url := openrouter_url; prompt := None |}].
Proof.
  destruct (missing_input_escapes fixed_stamp first_down None start eq_refl)
    as [Hchain _].
  destruct (missing_input_escapes fixed_stamp silent None start eq_refl)
    as (_ & _ & _ & _ & Hopen).
  split; [exact Hchain | exact Hopen].
Defined.

(** X9 and X10 with the second vendor down after the first answered X. *)
Lemma chain_call_discipline_witness :
  (stage_fails (snd (second_down scira_url (Some (JStr "hello")) 0))
   /\ calls (snd (chain_handler fixed_stamp second_down (Some (JStr "hello")) start))
      = [{| url := scira_url; prompt := Some (JStr "hello") |}])
  \/ (exists v1,
        stage_yields (snd (second_down scira_url (Some (JStr "hello")) 0)) v1
        /\ calls (snd (chain_handler fixed_stamp second_down (Some (JStr "hello")) start))
           = [{| url := scira_url; prompt := Some (JStr "hello") |};
              {| url := deepseek_url; prompt := Some v1 |}]).
Proof.
  apply (chain_call_discipline fixed_stamp second_down (Some (JStr "hello")) start).
  reflexivity.
Defined.

Lemma chain_second_stage_fails_witness :
  exists error reply after,
    chain_handler fixed_stamp second_down (Some (JStr "hello")) start = (Ok reply, after)
    /\ calls after = [{| url := scira_url; prompt := Some (JStr "hello") |};
                      {| url := deepseek_url; prompt := Some (JStr "X") |}]
    /\ chain_catch fixed_stamp 0 error after = (Ok reply, after)
    /\ field (body reply) "output" = None
    /\ field (body reply) "chain" = None
    /\ field (body reply) "error" <> None.
Proof.
  apply (chain_second_stage_fails fixed_stamp second_down (Some (JStr "hello")) start
           (JStr "X")).
  - reflexivity.
  - eexists. split; [reflexivity|]. split; [reflexivity | discriminate].
  - exact I.
Defined.

(** X11 with a first vendor that answers 2xx with an empty [output]. *)
Lemma chain_unusable_output_witness :
  chain_handler fixed_stamp (stub 7 (answers "") (answers "Y")) (Some (JStr "hello")) start =
    (Ok {| code := 500;
           body := JObj [("error", JStr "Chaining failed. Please check logs.");
                         ("metadata",
                          JObj [("processingTime", JNum 7);
                                ("timestamp", JStr (fixed_stamp (0 + 7)))])] |},
     {| now := 0 + 7;
        calls := [{| url := scira_url; prompt := Some (JStr "hello") |}] |}).
Proof.
  apply (chain_unusable_output fixed_stamp (stub 7 (answers "") (answers "Y"))
           (Some (JStr "hello")) start (JObj [("output", JStr "")])).
  - reflexivity.
  - reflexivity.
  - reflexivity.
Defined.

(** X12 with a vendor that answers 429: the single-provider handler sends
    its own 500. *)
Lemma single_handler_replies_witness :
  fst (single_handler fixed_stamp
         (stub 9 (refuses 429 (JObj [("message", JStr "quota exceeded")])) unreachable)
         scira_url "Scira API call failed" (Some (JStr "hello")) start)
  = Ok {| code := 500;
          body := JObj [("error", JStr "Scira API call failed");
                        ("metadata",
                         JObj [("processingTime", JNum 9);
                               ("timestamp", JStr (fixed_stamp (0 + 9)))])] |}.
Proof.
  destruct (single_handler_replies fixed_stamp
              (stub 9 (refuses 429 (JObj [("message", JStr "quota exceeded")])) unreachable)
              scira_url "Scira API call failed" (Some (JStr "hello")) start eq_refl)
    as (_ & Hfail & _).
  apply Hfail. exact I.
Defined.

(** X13 on the completion without choices. *)
Lemma openrouter_output_never_empty_witness :
  (200 = 200
   /\ exists v,
        field (JObj [("output", JStr "No response");
                     ("metadata",
                      JObj [("processingTime", JNum 25);
                            ("timestamp", JStr (fixed_stamp 25))])]) "output" = Some v
        /\ truthy (Some v) = true)
  \/ (200 = 500
      /\ field (JObj [("output", JStr "No response");
                      ("metadata",
                       JObj [("processingTime", JNum 25);
                             ("timestamp", JStr (fixed_stamp 25))])]) "output" = None
      /\ exists text,
           field (JObj [("output", JStr "No response");
                        ("metadata",
                         JObj [("processingTime", JNum 25);
                               ("timestamp", JStr (fixed_stamp 25))])]) "error"
           = Some (JStr text)).
Proof.
  apply (openrouter_output_never_empty fixed_stamp silent (Some (JStr "hello")) start
           {| code := 200;
              body := JObj [("output", JStr "No response");
                            ("metadata",
                             JObj [("processingTime", JNum 25);
                                   ("timestamp", JStr (fixed_stamp 25))])] |}).
  left. reflexivity.
Defined.

(** X16 and X17 on a vendor that is down and on one that answers without
    usage counts. *)
Lemma gemini_failure_is_wrapped_witness :
  fst (Gemini.gemini_handler fixed_stamp (Gemini.down 30 "quota exceeded")
         (Gemini.init (Some "key")) (Some (JStr "hello")) start)
  = Ok {| code := 500;
          body := JObj [("error", JStr "Gemini API call failed");
                        ("details", JStr "Gemini API error: quota exceeded");
                        ("metadata",
                         JObj [("processingTime", JNum 30);
                               ("timestamp", JStr (fixed_stamp (0 + 30)))])] |}.
Proof.
  destruct (gemini_failure_is_wrapped fixed_stamp (Gemini.down 30 "quota exceeded")
              {| Gemini.apiKey := "key"; Gemini.modelName := "gemini-2.0-flash-exp" |}
              (Some (JStr "hello")) start
              {| message := "quota exceeded"; response := None |}
              eq_refl (or_introl eq_refl)) as [_ Hrun].
  change (Gemini.init (Some "key"))
    with (Some {| Gemini.apiKey := "key"; Gemini.modelName := "gemini-2.0-flash-exp" |}).
  rewrite Hrun. reflexivity.
Defined.

Lemma gemini_success_witness :
  fst (Gemini.gemini_handler fixed_stamp (Gemini.replies 12 "Hi there" None)
         (Gemini.init (Some "key")) (Some (JStr "hello")) start)
  = Ok {| code := 200;
          body := JObj [("output", JStr "Hi there");
                        ("metadata",
                         JObj [("model", JStr "gemini-2.0-flash-exp");
                               ("processingTime", JNum 12);
                               ("timestamp", JStr (fixed_stamp (0 + 12)));
                               ("usage",
                                JObj [("promptTokens", JNum 0);
                                      ("responseTokens", JNum 0);
                                      ("totalTokens", JNum 0)])])] |}.
Proof.
  destruct (gemini_success fixed_stamp (Gemini.replies 12 "Hi there" None)
              {| Gemini.apiKey := "key"; Gemini.modelName := "gemini-2.0-flash-exp" |}
              (Some (JStr "hello")) start
              {| Gemini.text := Ok "Hi there"; Gemini.usageMetadata := None |}
              "Hi there" eq_refl eq_refl eq_refl) as [Hrun _].
  change (Gemini.init (Some "key"))
    with (Some {| Gemini.apiKey := "key"; Gemini.modelName := "gemini-2.0-flash-exp" |}).
  rewrite Hrun. reflexivity.
Defined.

(** X19 on an unknown address and on a wrong password for a known one. *)
Lemma login_failures_alike_witness :
  (exists took,
     Users.login fixed_stamp (Users.registry false) (Some (JStr "bob@example.com"))
       (Some (JStr "secret")) {| Users.clock := 0; Users.saves := [] |} =
       ({| code := 401;
           body := JObj [("error", JStr "Invalid email or password");
                         ("metadata",
                          JObj [("processingTime", JNum took);
                                ("timestamp", JStr (fixed_stamp (0 + took)))])] |},
        {| Users.clock := 0 + took; Users.saves := [] |}))
  /\ (exists took,
        Users.login fixed_stamp (Users.registry false) (Some (JStr "alice@example.com"))
          (Some (JStr "secret")) {| Users.clock := 0; Users.saves := [] |} =
          ({| code := 401;
              body := JObj [("error", JStr "Invalid email or password");
                            ("metadata",
                             JObj [("processingTime", JNum took);
                                   ("timestamp", JStr (fixed_stamp (0 + took)))])] |},
           {| Users.clock := 0 + took; Users.saves := [] |})).
Proof.
  split.
  - apply (login_failures_alike fixed_stamp (Users.registry false)
             (Some (JStr "bob@example.com")) (Some (JStr "secret"))
             {| Users.clock := 0; Users.saves := [] |}).
    left. reflexivity.
  - apply (login_failures_alike fixed_stamp (Users.registry false)
             (Some (JStr "alice@example.com")) (Some (JStr "secret"))
             {| Users.clock := 0; Users.saves := [] |}).
    right. exists Users.alice. split; reflexivity.
Defined.

End MoreRuns.
